(** * Mezzanine core forms (mezzanine/core/forms.py)

    A shallow embedding of the form classes of [mezzanine.core.forms]:
    the TinyMCE widget, the signup and login forms, the dynamic inline
    admin form and the in-line edit form factory [get_edit_form],
    followed by the properties of these that the specification states.

    Python objects are records, dictionaries with string keys are
    [gmap string _], Django's insertion-ordered [SortedDict] is an
    association list, and methods that touch the database, the settings
    or [self] are computations in a small state-and-exception monad. *)

From Stdlib Require Import Ascii String ZArith.
From stdpp Require Import base option list gmap strings.

Local Open Scope string_scope.

(** ** Python values, strings and exceptions *)

Module Python.

(** The values found in a form's [initial] dictionary and in the keys
    of the dictionaries the code indexes. *)
Inductive PyVal : Type :=
| PNone
| PInt (n : Z)
| PStr (s : string).

(** The exceptions that the modelled code raises or catches. *)
Inductive Exception : Type :=
| ValidationError (message : string)
| KeyError (key : PyVal)
| DoesNotExist
| IntegrityError
| AttributeError (attr : string)
| FieldError (names : list string).

(** [c.lower()] on one character of a byte string. *)
Definition ascii_lower (c : ascii) : ascii :=
  let n := nat_of_ascii c in
  if (65 <=? n)%nat && (n <=? 90)%nat then ascii_of_nat (n + 32) else c.

(** [s.lower()] *)
Fixpoint lower (s : string) : string :=
  match s with
  | EmptyString => EmptyString
  | String c rest => String (ascii_lower c) (lower rest)
  end.

(** [s.split(sep)] for a one-character separator: one piece more than
    there are separators, so that [[""]] is the split of the empty string. *)
Fixpoint split (sep : ascii) (s : string) : list string :=
  match s with
  | EmptyString => [EmptyString]
  | String c rest =>
      if Ascii.eqb c sep then EmptyString :: split sep rest
      else match split sep rest with
           | [] => [String c EmptyString]
           | piece :: pieces => String c piece :: pieces
           end
  end.

(** [sep.join(pieces)] *)
Fixpoint join (sep : ascii) (pieces : list string) : string :=
  match pieces with
  | [] => EmptyString
  | [piece] => piece
  | piece :: rest => piece +:+ String sep (join sep rest)
  end.

(** ["," in s], for one character. *)
Fixpoint contains (c : ascii) (s : string) : bool :=
  match s with
  | EmptyString => false
  | String c' rest => Ascii.eqb c' c || contains c rest
  end.

End Python.
Export Python.

(** ** Insertion-ordered dictionaries

    [django.utils.datastructures.SortedDict]: the keys are kept in the
    order of their first insertion; assigning to a key that is present
    replaces its value in place. *)

Module SortedDict.

Definition t (V : Type) : Type := list (string * V).

Definition keys {V} (d : t V) : list string := d.*1.

Fixpoint get {V} (d : t V) (k : string) : option V :=
  match d with
  | [] => None
  | (k', v) :: rest => if decide (k' = k) then Some v else get rest k
  end.

(** [d[k] = v] *)
Fixpoint set {V} (d : t V) (k : string) (v : V) : t V :=
  match d with
  | [] => [(k, v)]
  | (k', v') :: rest =>
      if decide (k' = k) then (k, v) :: rest else (k', v') :: set rest k v
  end.

(** [d.update(other)]: assigns the items of [other] in their order. *)
Definition update {V} (d other : t V) : t V :=
  fold_left (fun acc kv => set acc kv.1 kv.2) other d.

(** [SortedDict(items)] *)
Definition of_items {V} (items : list (string * V)) : t V :=
  update [] items.

End SortedDict.

(** ** The framework primitives the module builds on

    What [django.forms], [django.contrib.auth] and [mezzanine.conf]
    provide to the code under study: widgets with their attribute
    dictionaries, form fields, model classes and instances, the user
    table, the settings object, and the state in which methods run. *)

Module Django.

(** A widget class, with the attributes a call of the class without
    arguments leaves in [attrs]. *)
Record WidgetClass : Type := {
  wc_name : string;
  wc_attrs : gmap string string
}.

Record Widget : Type := {
  widget_class : WidgetClass;
  attrs : gmap string string
}.

(** [cls()] *)
Definition instantiate (cls : WidgetClass) : Widget :=
  {| widget_class := cls; attrs := wc_attrs cls |}.

Definition HiddenInput : WidgetClass :=
  {| wc_name := "HiddenInput"; wc_attrs := ∅ |}.

(** Form field classes. Classes are compared by identity, so a class
    defined elsewhere is [OtherField], whatever its name. *)
Inductive FieldClass : Type :=
| DateField
| DateTimeField
| EmailField
| CharField
| OtherField (name : string).

Definition __name__ (cls : FieldClass) : string :=
  match cls with
  | DateField => "DateField"
  | DateTimeField => "DateTimeField"
  | EmailField => "EmailField"
  | CharField => "CharField"
  | OtherField name => name
  end.

Record Field : Type := {
  field_class : FieldClass;
  widget : Widget;
  required : bool;
  label : option string
}.

(** [forms.CharField(label=..., widget=cls, required=...)]: a widget
    given as a class is instantiated by the field. *)
Definition new_CharField (label : option string) (cls : WidgetClass)
    (required : bool) : Field :=
  {| field_class := CharField; widget := instantiate cls;
     required := required; label := label |}.

(** Model classes: [_meta], the names of the classes in the method
    resolution order, the form field that each editable model field
    gives, in declaration order, and the names of the editable fields
    that give none (an [AutoField]). *)
Record Options : Type := {
  app_label : string;
  object_name : string
}.

Record ModelClass : Type := {
  _meta : Options;
  mro : list string;
  formfields : SortedDict.t Field;
  ignored : list string
}.

Definition issubclass (cls : ModelClass) (base : string) : bool :=
  bool_decide (base ∈ mro cls).

(** A model instance. *)
Record Model : Type := {
  __class__ : ModelClass;
  id : PyVal;
  field_values : gmap string PyVal
}.

(** [django.contrib.auth.models.User], as far as the forms use it. *)
Record User : Type := {
  username : string;
  email : string;
  password : string;
  is_active : bool
}.

(** [mezzanine.conf.settings], as far as the forms read it. *)
Record Settings : Type := {
  ADMIN_MEDIA_PREFIX : string;
  ACCOUNTS_VERIFICATION_REQUIRED : bool;
  FORMS_USE_HTML5 : bool
}.

Record HttpRequest : Type := {
  COOKIES : list (string * string);
  session : gmap string string
}.

(** Calls into the framework, recorded in the order they are made. *)
Inductive Call : Type :=
| Call_objects_get (username : string)
| Call_create_user (username email password : string)
| Call_use_editable
| Call_user_save (user : User)
| Call_authenticate (username password : string)
| Call_login (user : option User).

(** The state methods run in: the user table (usernames are unique, so
    it is keyed by username), the settings object and the calls made. *)
Record World : Type := {
  auth_user : gmap string User;
  settings : Settings;
  calls : list Call
}.

(** Behaviour of the framework and of [mezzanine.forms.fields] that is
    fixed outside this module. *)
Class Framework : Type := {
  (** the strings [validate_email] accepts *)
  email_is_valid : string → bool;
  (** the configured authentication backends *)
  backend_authenticate : gmap string User → string → string → option User;
  (** [User.set_password] and the e-mail normalisation of [create_user] *)
  make_password : string → string;
  normalize_email : string → string;
  (** what [django.contrib.auth.login] does to the session *)
  session_login : gmap string string → option User → gmap string string;
  (** the settings object once [use_editable] has been called *)
  editable_settings : Settings → Settings;
  (** [forms.Textarea.__init__] *)
  Textarea_init : option (gmap string string) → Widget;
  (** [mezzanine.forms.fields]: the field type constants and the table
      of widget classes *)
  fields_DATE : Z;
  fields_DATE_TIME : Z;
  fields_EMAIL : Z;
  fields_WIDGETS : gmap Z WidgetClass
}.

(** *** Computations that may raise and that change their state

    A computation runs on a state [S] and ends by returning a value or
    by raising; what it did to the state before raising stays done. *)

Inductive Outcome (A : Type) : Type :=
| Return (a : A)
| Raise (e : Exception).
Arguments Return {A} a.
Arguments Raise {A} e.

Definition Py (S A : Type) : Type := S → Outcome A * S.

Definition ret {S A} (a : A) : Py S A := fun s => (Return a, s).

Definition raise {S A} (e : Exception) : Py S A := fun s => (Raise e, s).

Definition bind {S A B} (c : Py S A) (k : A → Py S B) : Py S B :=
  fun s =>
    match c s with
    | (Return a, s') => k a s'
    | (Raise e, s') => (Raise e, s')
    end.

(** [try: c], with the outcome handed to the [except] and [else]
    clauses. *)
Definition attempt {S A} (c : Py S A) : Py S (Outcome A) :=
  fun s => let (r, s') := c s in (Return r, s').

(** [d[k]] on a dictionary. *)
Definition getitem {S V} (d : gmap string V) (k : string) : Py S V :=
  match d !! k with
  | Some v => ret v
  | None => raise (KeyError (PStr k))
  end.

(** A method runs on its object and the world. *)
Definition get_self {Self W} : Py (Self * W) Self :=
  fun s => (Return s.1, s).

Definition set_self {Self W} (self : Self) : Py (Self * W) unit :=
  fun s => (Return tt, (self, s.2)).

(** A call of a function that knows nothing of [self]. *)
Definition call {Self W A} (c : Py W A) : Py (Self * W) A :=
  fun s => let (r, w') := c s.2 in (r, (s.1, w')).

Definition log_call (c : Call) : Py World unit :=
  fun w => (Return tt,
            {| auth_user := auth_user w; settings := settings w;
               calls := calls w ++ [c] |}).

(** Exceptions without state, for code that changes nothing outside
    the object it builds. *)
#[export] Instance Outcome_ret : MRet Outcome := fun _ a => Return a.
#[export] Instance Outcome_bind : MBind Outcome := fun _ _ k c =>
  match c with
  | Return a => k a
  | Raise e => Raise e
  end.

End Django.
Export Django.

Declare Scope py_scope.
Delimit Scope py_scope with py.
Notation "x <- c ;; k" := (bind c (fun x => k))
  (at level 100, c at next level, right associativity) : py_scope.
Notation "c ;;; k" := (bind c (fun _ => k))
  (at level 100, right associativity) : py_scope.

(** *** [django.contrib.auth] *)

Module auth.
Section auth.
Context `{!Framework}.

(** [User.objects.get(username=name)] *)
Definition objects_get (name : string) : Py World User :=
  (log_call (Call_objects_get name) ;;;
   fun w => match auth_user w !! name with
            | Some user => (Return user, w)
            | None => (Raise DoesNotExist, w)
            end)%py.

(** [User.objects.create_user(name, mail, raw_password)]: the new row
    is active; a username that is taken violates the unique constraint. *)
Definition create_user (name mail raw_password : string) : Py World User :=
  (log_call (Call_create_user name mail raw_password) ;;;
   fun w => match auth_user w !! name with
            | Some _ => (Raise IntegrityError, w)
            | None =>
                let user := {| username := name;
                               email := normalize_email mail;
                               password := make_password raw_password;
                               is_active := true |} in
                (Return user,
                 {| auth_user := <[name := user]> (auth_user w);
                    settings := settings w; calls := calls w |})
            end)%py.

(** [user.save()] for a user that has a row. *)
Definition save (user : User) : Py World unit :=
  (log_call (Call_user_save user) ;;;
   fun w => (Return tt,
             {| auth_user := <[username user := user]> (auth_user w);
                settings := settings w; calls := calls w |}))%py.

(** [authenticate(username=..., password=...)] *)
Definition authenticate (name raw_password : string)
    : Py World (option User) :=
  (log_call (Call_authenticate name raw_password) ;;;
   fun w => (Return (backend_authenticate (auth_user w) name raw_password),
             w))%py.

(** [login(request, user)] *)
Definition login (request : HttpRequest) (user : option User)
    : Py World HttpRequest :=
  (log_call (Call_login user) ;;;
   ret {| COOKIES := COOKIES request;
          session := session_login (session request) user |})%py.

End auth.
End auth.

(** *** [mezzanine.conf.settings] *)

Module conf.
Section conf.
Context `{!Framework}.

(** [settings.use_editable()] *)
Definition use_editable : Py World unit :=
  (log_call Call_use_editable ;;;
   fun w => (Return tt,
             {| auth_user := auth_user w;
                settings := editable_settings (settings w);
                calls := calls w |}))%py.

(** [settings.NAME] *)
Definition read_setting {A} (name : Settings → A) : Py World A :=
  fun w => (Return (name (settings w)), w).

End conf.
End conf.

(** *** [django.core.validators] *)

Module validators.
Section validators.
Context `{!Framework}.

(** [validate_email(value)] *)
Definition validate_email (value : string) : Outcome unit :=
  if email_is_valid value then Return tt
  else Raise (ValidationError "Enter a valid e-mail address.").

End validators.
End validators.

(** ** [class TinyMceWidget(forms.Textarea)] *)

Module TinyMceWidget.
Section TinyMceWidget.
Context `{!Framework}.

Definition __init__ (args : option (gmap string string)) : Widget :=
  let self := Textarea_init args in
  {| widget_class := widget_class self;
     attrs := <["class" := "mceEditor"]> (attrs self) |}.

End TinyMceWidget.
End TinyMceWidget.

(** ** [class UserForm(forms.Form)] *)

Module UserForm.

(** The attributes of a form instance that the methods use.
    [cleaned_data] is filled by the framework's validation before it
    calls [clean_email] and [clean]; [_user] is absent until
    [authenticate] has run. *)
Record t : Type := {
  initial : gmap string string;
  data : option (gmap string string);
  cleaned_data : gmap string string;
  _user : option (option User)
}.

(** [self._user = user] *)
Definition set__user (user : option User) : Py (t * World) unit :=
  (self <- get_self ;;
   set_self {| initial := initial self; data := data self;
               cleaned_data := cleaned_data self; _user := Some user |})%py.

Section UserForm.
Context `{!Framework}.

(** The loop over [request.COOKIES.values()]. *)
Fixpoint scan_cookies (values : list string) (initial : gmap string string)
    : Outcome (gmap string string) :=
  match values with
  | [] => Return initial
  | value :: rest =>
      match validators.validate_email value with
      | Raise (ValidationError _) => scan_cookies rest initial
      | Raise e => Raise e
      | Return _ => Return (<["email" := value]> initial)
      end
  end.

Definition __init__ (request : HttpRequest)
    (args : option (gmap string string)) : Outcome t :=
  initial ← scan_cookies (COOKIES request).*2 ∅;
  mret {| initial := initial; data := args; cleaned_data := ∅;
          _user := None |}.

Definition authenticate : Py (t * World) unit :=
  (self <- get_self ;;
   user <- call (auth.authenticate
                   (default "" (cleaned_data self !! "email"))
                   (default "" (cleaned_data self !! "password"))) ;;
   set__user user)%py.

Definition login (request : HttpRequest) : Py (t * World) HttpRequest :=
  (self <- get_self ;;
   match _user self with
   | None => raise (AttributeError "_user")
   | Some user => call (auth.login request user)
   end)%py.

End UserForm.
End UserForm.

(** ** [class SignupForm(UserForm)] *)

Module SignupForm.
Section SignupForm.
Context `{!Framework}.

Definition clean_email : Py (UserForm.t * World) string :=
  (self <- get_self ;;
   email <- getitem (UserForm.cleaned_data self) "email" ;;
   found <- attempt (call (auth.objects_get email)) ;;
   match found with
   | Raise DoesNotExist => ret email
   | Raise e => raise e
   | Return _ => raise (ValidationError "This email is already registered")
   end)%py.

Definition save : Py (UserForm.t * World) User :=
  (self <- get_self ;;
   email <- getitem (UserForm.cleaned_data self) "email" ;;
   raw_password <- getitem (UserForm.cleaned_data self) "password" ;;
   user <- call (auth.create_user email email raw_password) ;;
   call conf.use_editable ;;;
   verification_required <-
     call (conf.read_setting ACCOUNTS_VERIFICATION_REQUIRED) ;;
   if verification_required : bool then
     let user := {| username := username user; email := Django.email user;
                    password := password user; is_active := false |} in
     call (auth.save user) ;;;
     ret user
   else
     UserForm.authenticate ;;;
     ret user)%py.

End SignupForm.
End SignupForm.

(** ** [class LoginForm(UserForm)] *)

Module LoginForm.
Section LoginForm.
Context `{!Framework}.

Definition clean : Py (UserForm.t * World) (gmap string string) :=
  (self <- get_self ;;
   if bool_decide (is_Some (UserForm.cleaned_data self !! "email"))
      && bool_decide (is_Some (UserForm.cleaned_data self !! "password"))
   then
     UserForm.authenticate ;;;
     self <- get_self ;;
     match UserForm._user self with
     | None => raise (AttributeError "_user")
     | Some None => raise (ValidationError "Invalid email/password")
     | Some (Some user) =>
         if negb (is_active user)
         then raise (ValidationError "Your account is inactive")
         else ret (UserForm.cleaned_data self)
     end
   else ret (UserForm.cleaned_data self))%py.

End LoginForm.
End LoginForm.

(** *** [django.forms.ModelForm] *)

Module ModelForm.

Record t : Type := {
  model : ModelClass;
  Meta_fields : option (list string);
  fields : SortedDict.t Field;
  initial : gmap string PyVal;
  instance : option Model;
  data : option (gmap string string);
  files : option (gmap string string)
}.

(** [fields_for_model(model, fields)]: the model's form fields, or,
    when [fields] is given, one entry per name in it that is not
    ignored, [None] for a name that is no editable field of the model. *)
Definition fields_for_model (model : ModelClass)
    (fields : option (list string)) : SortedDict.t (option Field) :=
  match fields with
  | None =>
      SortedDict.of_items ((fun kv => (kv.1, Some kv.2)) <$> formfields model)
  | Some names =>
      SortedDict.of_items
        ((fun f => (f, SortedDict.get (formfields model) f))
           <$> filter (fun f => f ∉ ignored model) names)
  end.

(** The metaclass: the class's [base_fields]. A name without a model
    field that is not declared on the class either is an error; the
    declared fields then override the model's. *)
Definition metaclass (model : ModelClass) (Meta_fields : option (list string))
    (declared_fields : SortedDict.t Field) : Outcome (SortedDict.t Field) :=
  let fields := fields_for_model model Meta_fields in
  let none_model_fields :=
    (filter (fun kv => kv.2 = None) fields).*1 in
  let missing_fields :=
    filter (fun k => k ∉ SortedDict.keys declared_fields) none_model_fields in
  match missing_fields with
  | _ :: _ => Raise (FieldError missing_fields)
  | [] =>
      let fields :=
        SortedDict.update fields
          ((fun kv => (kv.1, Some kv.2)) <$> declared_fields) in
      Return (omap (fun kv => pair kv.1 <$> kv.2) fields)
  end.

(** [model_to_dict(instance, fields)]: the values of the editable
    fields, of those in [fields] when it is given and not empty. *)
Definition model_to_dict (instance : Model) (fields : option (list string))
    : gmap string PyVal :=
  let editable :=
    (SortedDict.keys (formfields (__class__ instance))
       ++ ignored (__class__ instance))%list in
  match fields with
  | None | Some [] =>
      filter (fun kv => kv.1 ∈ editable) (field_values instance)
  | Some names =>
      filter (fun kv => kv.1 ∈ editable ∧ kv.1 ∈ names)
             (field_values instance)
  end.

(** [ModelForm.__init__(data, files, initial=..., instance=...)] for a
    class whose metaclass gave [base_fields]: the instance's values,
    updated with [initial]. *)
Definition __init__ (model : ModelClass) (Meta_fields : option (list string))
    (base_fields : SortedDict.t Field)
    (instance : option Model) (initial : option (gmap string PyVal))
    (data files : option (gmap string string)) : t :=
  let object_data :=
    match instance with
    | None => ∅
    | Some obj => model_to_dict obj Meta_fields
    end in
  {| model := model; Meta_fields := Meta_fields; fields := base_fields;
     initial := default ∅ initial ∪ object_data;
     instance := instance; data := data; files := files |}.

End ModelForm.

(** ** [class OrderWidget(forms.HiddenInput)] *)

Module OrderWidget.

Definition cls : WidgetClass :=
  {| wc_name := "OrderWidget"; wc_attrs := ∅ |}.

(** [render], given what [HiddenInput.render] returns. *)
Definition render (settings : Settings) (rendered : string) : string :=
  let arrows :=
    (fun arrow => "<img src='" +:+ ADMIN_MEDIA_PREFIX settings
                  +:+ "img/admin/arrow-" +:+ arrow +:+ ".gif' />")
      <$> ["up"; "down"] in
  let arrows :=
    "<span class='ordering'>" +:+ String.concat "" arrows +:+ "</span>" in
  rendered +:+ arrows.

End OrderWidget.

(** ** [class DynamicInlineAdminForm(forms.ModelForm)] *)

Module DynamicInlineAdminForm.

(** [mezzanine.core.models.Orderable] *)
Definition Orderable : string := "mezzanine.core.models.Orderable".

(** The arguments are those of [ModelForm.__init__]; the admin derives
    the class with the inline's model, so [model], [Meta_fields] and
    [base_fields] are the class's. *)
Definition __init__ (model : ModelClass) (Meta_fields : option (list string))
    (base_fields : SortedDict.t Field)
    (instance : option Model) (initial : option (gmap string PyVal))
    (data files : option (gmap string string)) : ModelForm.t :=
  let self :=
    ModelForm.__init__ model Meta_fields base_fields instance initial
                       data files in
  if issubclass (ModelForm.model self) Orderable then
    {| ModelForm.model := ModelForm.model self;
       ModelForm.Meta_fields := ModelForm.Meta_fields self;
       ModelForm.fields :=
         SortedDict.set (ModelForm.fields self) "_order"
           (new_CharField (Some "Order") OrderWidget.cls false);
       ModelForm.initial := ModelForm.initial self;
       ModelForm.instance := ModelForm.instance self;
       ModelForm.data := ModelForm.data self;
       ModelForm.files := ModelForm.files self |}
  else self.

End DynamicInlineAdminForm.

(** ** [get_edit_form] and its [class EditForm(forms.ModelForm)] *)

Module EditForm.

Record t : Type := {
  form : ModelForm.t;
  uuid : string
}.

(** The four fields declared in the class body. *)
Definition declared_fields : SortedDict.t Field :=
  [("app", new_CharField None HiddenInput true);
   ("model", new_CharField None HiddenInput true);
   ("id", new_CharField None HiddenInput true);
   ("fields", new_CharField None HiddenInput true)].

(** [field.widget = widget] *)
Definition with_widget (field : Field) (widget : Widget) : Field :=
  {| field_class := field_class field; widget := widget;
     required := required field; label := label field |}.

(** [for x in items: s = body(s, x)], stopping at the first exception. *)
Fixpoint for_in {A S} (body : S → A → Outcome S) (items : list A) (s : S)
    : Outcome S :=
  match items with
  | [] => Return s
  | x :: rest => s' ← body s x; for_in body rest s'
  end.

Section EditForm.
Context `{!Framework}.

Definition widget_overrides (field_class : FieldClass) : option Z :=
  match field_class with
  | DateField => Some fields_DATE
  | DateTimeField => Some fields_DATE_TIME
  | EmailField => Some fields_EMAIL
  | _ => None
  end.

(** The [try ... except KeyError ... else] statement of the loop: the
    widget of the field when the statement is over. A type that
    [fields.WIDGETS] lacks raises from the [else] clause. *)
Definition override_widget (field : Field) : Outcome Widget :=
  match widget_overrides (field_class field) with
  | None => Return (widget field)
  | Some field_type =>
      match fields_WIDGETS !! field_type with
      | Some cls => Return (instantiate cls)
      | None => Raise (KeyError (PInt field_type))
      end
  end.

(** The assignments to [widget.attrs] that follow it. *)
Definition set_attrs (settings : Settings) (uuid f : string)
    (field : Field) (widget : Widget) : Widget :=
  let css_class := default "" (attrs widget !! "class") in
  let css_class :=
    css_class +:+ " " +:+ lower (__name__ (field_class field)) in
  let attrs := <["class" := css_class]> (attrs widget) in
  let attrs := <["id" := f +:+ "-" +:+ uuid]> attrs in
  let attrs :=
    if FORMS_USE_HTML5 settings && required field
    then <["required" := ""]> attrs
    else attrs in
  {| widget_class := widget_class widget; attrs := attrs |}.

(** One turn of the loop of [__init__], for the key [f]. *)
Definition init_field (settings : Settings) (uuid : string)
    (fields : SortedDict.t Field) (f : string)
    : Outcome (SortedDict.t Field) :=
  field ← match SortedDict.get fields f with
          | Some field => Return field
          | None => Raise (KeyError (PStr f))
          end;
  widget ← override_widget field;
  mret (SortedDict.set fields f
          (with_widget field (set_attrs settings uuid f field widget))).

(** [uuid4] stands for what [str(uuid4())] returns in this call. *)
Definition __init__ (settings : Settings) (uuid4 : string)
    (model : ModelClass) (Meta_fields : list string)
    (base_fields : SortedDict.t Field)
    (instance : Model) (initial : gmap string PyVal)
    (data files : option (gmap string string)) : Outcome t :=
  let self :=
    ModelForm.__init__ model (Some Meta_fields) base_fields (Some instance)
                       (Some initial) data files in
  fields ← for_in (init_field settings uuid4)
                  (SortedDict.keys (ModelForm.fields self))
                  (ModelForm.fields self);
  mret {| form := {| ModelForm.model := ModelForm.model self;
                     ModelForm.Meta_fields := ModelForm.Meta_fields self;
                     ModelForm.fields := fields;
                     ModelForm.initial := ModelForm.initial self;
                     ModelForm.instance := ModelForm.instance self;
                     ModelForm.data := ModelForm.data self;
                     ModelForm.files := ModelForm.files self |};
          uuid := uuid4 |}.

End EditForm.
End EditForm.

Section get_edit_form.
Context `{!Framework}.

(** The [base_fields] of the class that the [class EditForm] statement
    creates for [obj] and [field_names]. *)
Definition EditForm_base_fields (obj : Model) (field_names : string)
    : Outcome (SortedDict.t Field) :=
  ModelForm.metaclass (__class__ obj) (Some (split "," field_names))
                      EditForm.declared_fields.

Definition get_edit_form (settings : Settings) (uuid4 : string)
    (obj : Model) (field_names : string)
    (data files : option (gmap string string)) : Outcome EditForm.t :=
  base_fields ← EditForm_base_fields obj field_names;
  let initial : gmap string PyVal :=
    {[ "app" := PStr (app_label (_meta (__class__ obj)));
       "id" := id obj;
       "fields" := PStr field_names;
       "model" := PStr (lower (object_name (_meta (__class__ obj)))) ]} in
  EditForm.__init__ settings uuid4 (__class__ obj) (split "," field_names)
                    base_fields obj initial data files.

End get_edit_form.

(** ** A concrete framework and concrete data, for examples *)

Module Demo.

Definition SelectDateWidget : WidgetClass :=
  {| wc_name := "SelectDateWidget"; wc_attrs := ∅ |}.

Definition SplitSelectDateTimeWidget : WidgetClass :=
  {| wc_name := "SplitSelectDateTimeWidget"; wc_attrs := ∅ |}.

Definition EmailInput : WidgetClass :=
  {| wc_name := "EmailInput"; wc_attrs := {[ "class" := "email" ]} |}.

Definition Textarea : WidgetClass :=
  {| wc_name := "Textarea";
     wc_attrs := {[ "cols" := "40"; "rows" := "10" ]} |}.

Definition TextInput : WidgetClass :=
  {| wc_name := "TextInput"; wc_attrs := ∅ |}.

(** A backend that compares the stored password with the given one. *)
Definition check_password (users : gmap string User)
    (name raw_password : string) : option User :=
  match users !! name with
  | Some user =>
      if decide (password user = raw_password) then Some user else None
  | None => None
  end.

Definition framework : Framework :=
  {| email_is_valid := contains "@";
     backend_authenticate := check_password;
     make_password := fun raw => raw;
     normalize_email := fun mail => mail;
     session_login := fun session user =>
       match user with
       | Some user => <["_auth_user_id" := username user]> session
       | None => session
       end;
     editable_settings := fun settings => settings;
     Textarea_init := fun attrs =>
       {| widget_class := Textarea;
          attrs := default ∅ attrs ∪ wc_attrs Textarea |};
     fields_DATE := 10;
     fields_DATE_TIME := 11;
     fields_EMAIL := 3;
     fields_WIDGETS := {[ 10%Z := SelectDateWidget;
                          11%Z := SplitSelectDateTimeWidget;
                          3%Z := EmailInput ]} |}.

Definition configured (verification html5 : bool) : Settings :=
  {| ADMIN_MEDIA_PREFIX := "/media/";
     ACCOUNTS_VERIFICATION_REQUIRED := verification;
     FORMS_USE_HTML5 := html5 |}.

Definition alice : User :=
  {| username := "alice@example.com"; email := "alice@example.com";
     password := "secret"; is_active := true |}.

Definition bob : User :=
  {| username := "bob@example.com"; email := "bob@example.com";
     password := "hunter2"; is_active := false |}.

Definition world (verification : bool) : World :=
  {| auth_user := {[ "alice@example.com" := alice;
                     "bob@example.com" := bob ]};
     settings := configured verification false;
     calls := [] |}.

Definition request : HttpRequest :=
  {| COOKIES := [("sessionid", "0123abcd"); ("last", "carol@example.com");
                 ("other", "dave@example.com")];
     session := ∅ |}.

Definition submitted (mail raw_password : string) : UserForm.t :=
  {| UserForm.initial := ∅; UserForm.data := None;
     UserForm.cleaned_data :=
       {[ "email" := mail; "password" := raw_password ]};
     UserForm._user := None |}.

(** An event model with a title and a start date. *)
Definition Event : ModelClass :=
  {| _meta := {| app_label := "calendar"; object_name := "Event" |};
     mro := ["calendar.models.Event"; "django.db.models.Model"];
     formfields :=
       [("title",
         {| field_class := CharField;
            widget := {| widget_class := TextInput;
                         attrs := {[ "maxlength" := "100" ]} |};
            required := true; label := None |});
        ("start_date",
         {| field_class := DateField; widget := instantiate TextInput;
            required := false; label := None |})];
     ignored := ["id"] |}.

Definition event : Model :=
  {| __class__ := Event; id := PInt 7;
     field_values := {[ "id" := PInt 7; "title" := PStr "Launch";
                        "start_date" := PStr "2011-07-01" ]} |}.

(** An orderable model. *)
Definition Slide : ModelClass :=
  {| _meta := {| app_label := "gallery"; object_name := "Slide" |};
     mro := ["gallery.models.Slide"; DynamicInlineAdminForm.Orderable;
             "django.db.models.Model"];
     formfields :=
       [("caption",
         {| field_class := CharField; widget := instantiate TextInput;
            required := true; label := None |});
        ("_order",
         {| field_class := OtherField "IntegerField";
            widget := instantiate TextInput;
            required := false; label := Some "Order" |})];
     ignored := ["id"] |}.

(** A model with an e-mail field, and a framework whose table of
    widget classes has no entry for the e-mail field type. *)
Definition Contact : ModelClass :=
  {| _meta := {| app_label := "people"; object_name := "Contact" |};
     mro := ["people.models.Contact"; "django.db.models.Model"];
     formfields :=
       [("email",
         {| field_class := EmailField; widget := instantiate TextInput;
            required := true; label := None |})];
     ignored := ["id"] |}.

Definition contact : Model :=
  {| __class__ := Contact; id := PInt 1;
     field_values := {[ "id" := PInt 1;
                        "email" := PStr "alice@example.com" ]} |}.

Definition framework_without_email_widget : Framework :=
  {| email_is_valid := contains "@";
     backend_authenticate := check_password;
     make_password := fun raw => raw;
     normalize_email := fun mail => mail;
     session_login := fun session _ => session;
     editable_settings := fun settings => settings;
     Textarea_init := fun _ => instantiate Textarea;
     fields_DATE := 10;
     fields_DATE_TIME := 11;
     fields_EMAIL := 3;
     fields_WIDGETS := {[ 10%Z := SelectDateWidget;
                          11%Z := SplitSelectDateTimeWidget ]} |}.

End Demo.

(** * Properties *)

(** ** Strings *)

Section strings.

Lemma split_cons (sep : ascii) (s : string) :
  ∃ piece pieces, split sep s = piece :: pieces.
Proof.
  destruct s as [|c s]; simpl; [by eauto|].
  destruct (Ascii.eqb c sep); [by eauto|].
  destruct (split sep s); by eauto.
Qed.

Lemma join_cons_cons (sep : ascii) (p q : string) (l : list string) :
  join sep (p :: q :: l) = p +:+ String sep (join sep (q :: l)).
Proof. reflexivity. Qed.

(** Joining the pieces with the separator gives the string back. *)
Lemma join_split (sep : ascii) (s : string) : join sep (split sep s) = s.
Proof.
  induction s as [|c s IH]; [done|]. cbn [split].
  destruct (split_cons sep s) as (piece & pieces & Hs).
  rewrite Hs in IH |- *.
  destruct (Ascii.eqb_spec c sep) as [->|Hne].
  - by rewrite join_cons_cons, IH.
  - destruct pieces as [|q l].
    + simpl in *. by rewrite IH.
    + rewrite join_cons_cons in IH |- *. by rewrite <- IH.
Qed.

(** No piece holds the separator. *)
Lemma split_pieces (sep : ascii) (s piece : string) :
  piece ∈ split sep s → contains sep piece = false.
Proof.
  revert piece. induction s as [|c s IH]; intros piece; simpl.
  - intros ->%list_elem_of_singleton. done.
  - destruct (Ascii.eqb_spec c sep) as [->|Hne].
    + intros [->|Hin]%elem_of_cons; [done|by apply IH].
    + destruct (split_cons sep s) as (p & ps & Hs). rewrite Hs in IH |- *.
      intros [->|Hin]%elem_of_cons.
      * simpl. destruct (Ascii.eqb_spec c sep); [done|].
        apply IH. by left.
      * apply IH. by right.
Qed.

(** A string without the separator is its own only piece. *)
Lemma split_single (sep : ascii) (s : string) :
  contains sep s = false → split sep s = [s].
Proof.
  induction s as [|c s IH]; [done|]. simpl.
  destruct (Ascii.eqb c sep); [done|]. simpl.
  intros Hs. by rewrite IH.
Qed.

Lemma lower_app (s1 s2 : string) : lower (s1 +:+ s2) = lower s1 +:+ lower s2.
Proof. induction s1 as [|c s1 IH]; [done|]. simpl. by rewrite IH. Qed.

Lemma ascii_lower_idemp (c : ascii) : ascii_lower (ascii_lower c) = ascii_lower c.
Proof. by destruct c as [[] [] [] [] [] [] [] []]. Qed.

Lemma lower_idemp (s : string) : lower (lower s) = lower s.
Proof.
  induction s as [|c s IH]; [done|]. simpl.
  by rewrite ascii_lower_idemp, IH.
Qed.

Example lower_CharField : lower (__name__ CharField) = "charfield".
Proof. reflexivity. Qed.

Example split_two :
  split "," "title,start_date" = ["title"; "start_date"].
Proof. reflexivity. Qed.

Example split_empty : split "," "" = [""].
Proof. reflexivity. Qed.

End strings.

(** ** Insertion-ordered dictionaries *)

Module SortedDictFacts.
Import SortedDict.

Section facts.
Context {V : Type}.
Implicit Types (d other : t V) (k : string) (v : V).

Lemma get_Some_elem_of d k v : get d k = Some v → (k, v) ∈ d.
Proof.
  induction d as [|[k' v'] d IH]; csimpl; [done|].
  case_decide as Hk; [intros [= ->]; subst; by left|].
  intros Hg. right. by apply IH.
Qed.

Lemma get_is_Some d k : is_Some (get d k) ↔ k ∈ keys d.
Proof.
  unfold keys. induction d as [|[k' v'] d IH]; csimpl.
  - split; [by intros [? [=]]|by intros ?%elem_of_nil].
  - case_decide as Hk; subst.
    + split; [intros _; by left|by eauto].
    + rewrite IH, elem_of_cons. split; [by right|by intros [?|?]].
Qed.

Lemma get_None d k : get d k = None ↔ k ∉ keys d.
Proof. rewrite <- get_is_Some, eq_None_not_Some. done. Qed.

Lemma get_NoDup d k v : NoDup (keys d) → (k, v) ∈ d → get d k = Some v.
Proof.
  unfold keys. induction d as [|[k' v'] d IH]; csimpl.
  - by intros _ ?%elem_of_nil.
  - intros [Hk' Hd]%NoDup_cons [[= -> ->]|Hin]%elem_of_cons.
    + by rewrite decide_True.
    + rewrite decide_False; [by apply IH|].
      intros ->. apply Hk'. apply list_elem_of_fmap. by exists (k, v).
Qed.

Lemma get_set_eq d k v : get (set d k v) k = Some v.
Proof.
  induction d as [|[k' v'] d IH]; csimpl; [by rewrite decide_True|].
  case_decide; csimpl; [by rewrite decide_True|by rewrite decide_False].
Qed.

Lemma get_set_ne d k k' v : k ≠ k' → get (set d k v) k' = get d k'.
Proof.
  intros Hne. induction d as [|[k0 v0] d IH]; csimpl.
  - by rewrite decide_False.
  - case_decide; csimpl; subst.
    + by rewrite !decide_False.
    + by rewrite IH.
Qed.

Lemma get_set d k k' v :
  get (set d k v) k' = if decide (k = k') then Some v else get d k'.
Proof.
  case_decide; subst; [apply get_set_eq|by apply get_set_ne].
Qed.

(** Assigning to a key that is present keeps the keys and their order;
    a new key goes to the end. *)
Lemma keys_set_present d k v : k ∈ keys d → keys (set d k v) = keys d.
Proof.
  unfold keys. induction d as [|[k' v'] d IH]; csimpl.
  - by intros ?%elem_of_nil.
  - case_decide; subst; csimpl; [done|].
    intros [->|Hin]%elem_of_cons; [done|]. by rewrite IH.
Qed.

Lemma keys_set_absent d k v :
  k ∉ keys d → keys (set d k v) = (keys d ++ [k])%list.
Proof.
  unfold keys. induction d as [|[k' v'] d IH]; csimpl; [done|].
  intros [Hne Hin]%not_elem_of_cons.
  rewrite decide_False by done. csimpl. by rewrite IH.
Qed.

Lemma elem_of_keys_set d k k' v :
  k' ∈ keys (set d k v) ↔ k' = k ∨ k' ∈ keys d.
Proof.
  destruct (decide (k ∈ keys d)) as [Hin|Hnin].
  - rewrite keys_set_present by done. naive_solver.
  - rewrite keys_set_absent, elem_of_app, list_elem_of_singleton by done.
    naive_solver.
Qed.

Lemma NoDup_keys_set d k v : NoDup (keys d) → NoDup (keys (set d k v)).
Proof.
  intros Hd. destruct (decide (k ∈ keys d)) as [Hin|Hnin].
  - by rewrite keys_set_present.
  - rewrite keys_set_absent by done. apply NoDup_app.
    split_and!; [done| |apply NoDup_singleton].
    intros x Hx ->%list_elem_of_singleton. done.
Qed.

Lemma update_snoc d other k v :
  update d (other ++ [(k, v)])%list = set (update d other) k v.
Proof. unfold update. by rewrite fold_left_app. Qed.

Lemma elem_of_keys_update d other k :
  k ∈ keys (update d other) ↔ k ∈ keys d ∨ k ∈ other.*1.
Proof.
  induction other as [|[k' v'] other IH] using rev_ind.
  - csimpl. rewrite elem_of_nil. naive_solver.
  - rewrite update_snoc, elem_of_keys_set, IH, fmap_app, elem_of_app.
    csimpl. rewrite list_elem_of_singleton. naive_solver.
Qed.

Lemma NoDup_keys_update d other :
  NoDup (keys d) → NoDup (keys (update d other)).
Proof.
  intros Hd. induction other as [|[k' v'] other IH] using rev_ind; [done|].
  rewrite update_snoc. by apply NoDup_keys_set.
Qed.

(** When every value of [other] is a function [g] of its key, so is
    what the update leaves under these keys. *)
Lemma get_update_fun d other (g : string → V) k :
  (∀ k' v', (k', v') ∈ other → v' = g k') →
  get (update d other) k
  = if decide (k ∈ other.*1) then Some (g k) else get d k.
Proof.
  induction other as [|[k' v'] other IH] using rev_ind; intros Hg.
  - done.
  - rewrite update_snoc, get_set, fmap_app. csimpl.
    rewrite IH by (intros ???; apply Hg, elem_of_app; by left).
    destruct (decide (k' = k)) as [->|Hne].
    + rewrite decide_True by (apply elem_of_app; right; by left).
      f_equal. apply Hg, elem_of_app. right. by left.
    + destruct (decide (k ∈ other.*1)) as [Hin|Hnin].
      * rewrite decide_True; [done|]. apply elem_of_app. by left.
      * rewrite decide_False; [done|].
        rewrite elem_of_app, list_elem_of_singleton. by intros [?|?].
Qed.

Lemma NoDup_keys_of_items (items : list (string * V)) :
  NoDup (keys (of_items items)).
Proof. apply NoDup_keys_update. constructor. Qed.

End facts.

(** Dropping the entries without a value, when keys are distinct. *)
Lemma keys_omap_sublist {V} (d : t (option V)) :
  sublist (keys (omap (fun kv => pair kv.1 <$> kv.2) d)) (keys d).
Proof.
  unfold keys. induction d as [|[k [v|]] d IH]; csimpl; [done| |].
  - by apply sublist_skip.
  - by apply sublist_cons.
Qed.

Lemma get_omap {V} (d : t (option V)) k :
  NoDup (keys d) →
  get (omap (fun kv => pair kv.1 <$> kv.2) d) k = mjoin (get d k).
Proof.
  unfold keys. induction d as [|[k' [v|]] d IH]; csimpl; [done| |].
  - intros [_ Hd]%NoDup_cons. case_decide; [done|by apply IH].
  - intros [Hk' Hd]%NoDup_cons. case_decide as Hk; subst; [|by apply IH].
    csimpl. apply get_None.
    intros Hin. apply Hk'.
    eapply elem_of_sublist; [done|apply (keys_omap_sublist d)].
Qed.

End SortedDictFacts.

(** ** The rich-text widget *)

Section widgets.
Context `{!Framework}.

(** C10: whatever attributes are passed to the constructor of the
    rich-text widget, and whatever class the text-area constructor left
    from them, the class attribute of the new widget is the editor class
    alone; every other attribute is the one the text-area constructor
    set. *)
Theorem TinyMceWidget_init_overwrites_class (args : option (gmap string string)) :
  attrs (TinyMceWidget.__init__ args) !! "class" = Some "mceEditor"
  ∧ delete "class" (attrs (TinyMceWidget.__init__ args))
    = delete "class" (attrs (Textarea_init args))
  ∧ widget_class (TinyMceWidget.__init__ args)
    = widget_class (Textarea_init args).
Proof.
  unfold TinyMceWidget.__init__. simpl. split_and!.
  - apply lookup_insert_eq.
  - apply delete_insert_eq.
  - reflexivity.
Qed.

End widgets.

(** With the text-area constructor of the example framework, a class
    passed in is replaced, not extended. *)
Example TinyMceWidget_init_replaces_given_class :
  attrs (@TinyMceWidget.__init__ Demo.framework
           (Some {[ "class" := "wide"; "rows" := "4" ]}))
  = {[ "class" := "mceEditor"; "rows" := "4"; "cols" := "40" ]}.
Proof. by vm_compute. Qed.

(** ** The signup and login forms *)

Section cookies.
Context `{!Framework}.

Lemma validate_email_valid (value : string) :
  email_is_valid value = true → validators.validate_email value = Return tt.
Proof. unfold validators.validate_email. by intros ->. Qed.

Lemma validate_email_invalid (value : string) :
  email_is_valid value = false →
  ∃ message, validators.validate_email value = Raise (ValidationError message).
Proof. unfold validators.validate_email. intros ->. by eexists. Qed.

(** Values that are no e-mail addresses are passed over. *)
Lemma scan_cookies_skip (before rest : list string)
    (initial : gmap string string) :
  Forall (fun value => email_is_valid value = false) before →
  UserForm.scan_cookies (before ++ rest)%list initial
  = UserForm.scan_cookies rest initial.
Proof.
  induction 1 as [|value before Hvalue _ IH]; [done|]. simpl.
  destruct (validate_email_invalid value Hvalue) as [message ->]. done.
Qed.

(** The loop never raises. *)
Lemma scan_cookies_returns (values : list string)
    (initial : gmap string string) :
  ∃ initial', UserForm.scan_cookies values initial = Return initial'.
Proof.
  induction values as [|value values IH]; simpl; [by eauto|].
  unfold validators.validate_email. destruct (email_is_valid value); by eauto.
Qed.

(** C1: constructing the form of the signup and login pages succeeds
    for every request. When a cookie value is a valid e-mail address and
    no value before it in the order of the cookie collection is, that
    value is the initial e-mail and nothing else is set; when no cookie
    value is a valid e-mail address, no initial value is set. *)
Theorem UserForm_init_prefills_first_valid_cookie (request : HttpRequest)
    (args : option (gmap string string)) :
  ∃ self,
    UserForm.__init__ request args = Return self
    ∧ (∀ before value after,
         (COOKIES request).*2 = (before ++ value :: after)%list →
         Forall (fun v => email_is_valid v = false) before →
         email_is_valid value = true →
         UserForm.initial self = {[ "email" := value ]})
    ∧ (Forall (fun v => email_is_valid v = false) (COOKIES request).*2 →
       UserForm.initial self = ∅).
Proof.
  unfold UserForm.__init__.
  destruct (scan_cookies_returns (COOKIES request).*2 ∅) as [initial Hscan].
  rewrite Hscan. eexists. split; [reflexivity|]. simpl. split.
  - intros before value after Hvalues Hbefore Hvalue.
    rewrite Hvalues, scan_cookies_skip in Hscan by done. simpl in Hscan.
    rewrite validate_email_valid in Hscan by done. by injection Hscan as <-.
  - intros Hall.
    rewrite <- (app_nil_r (COOKIES request).*2), scan_cookies_skip in Hscan
      by done.
    by injection Hscan as <-.
Qed.

End cookies.

(** The first valid value of the example request is the second cookie. *)
Lemma UserForm_init_prefills_first_valid_cookie_witness :
  ∃ self,
    @UserForm.__init__ Demo.framework Demo.request None = Return self
    ∧ UserForm.initial self = {[ "email" := "carol@example.com" ]}.
Proof.
  destruct (@UserForm_init_prefills_first_valid_cookie Demo.framework
              Demo.request None) as (self & Hinit & Hfirst & _).
  exists self. split; [exact Hinit|].
  apply (Hfirst ["0123abcd"] "carol@example.com" ["dave@example.com"]).
  - reflexivity.
  - repeat constructor.
  - reflexivity.
Defined.

(** Running a method: unfold the monad and the framework calls. *)
Ltac run_py :=
  cbv beta iota zeta delta
    [bind ret raise attempt getitem get_self set_self call log_call
     UserForm.set__user UserForm.authenticate UserForm.login
     auth.objects_get auth.create_user auth.save auth.authenticate
     auth.login conf.use_editable conf.read_setting fst snd];
  cbn [auth_user settings calls UserForm.initial UserForm.data
       UserForm.cleaned_data UserForm._user].

Section signup.
Context `{!Framework}.

(** What [clean_email] does, by the row the user table has for the
    e-mail: it only looks the row up. *)
Lemma SignupForm_clean_email_run (self : UserForm.t) (w : World)
    (email : string) :
  UserForm.cleaned_data self !! "email" = Some email →
  SignupForm.clean_email (self, w)
  = (match auth_user w !! email with
     | Some _ => Raise (ValidationError "This email is already registered")
     | None => Return email
     end,
     (self, {| auth_user := auth_user w; settings := settings w;
               calls := calls w ++ [Call_objects_get email] |})).
Proof.
  intros Hemail. unfold SignupForm.clean_email. run_py.
  rewrite Hemail. run_py. by destruct (auth_user w !! email).
Qed.

(** C2: with a submitted e-mail in the cleaned data, whatever else the
    form holds (the password among it): when the user table has a user
    registered under that e-mail, which signup stores as the username,
    validation of the field raises the duplicate-email error; when it
    has none, validation returns the submitted e-mail. *)
Theorem SignupForm_clean_email_rejects_registered (self : UserForm.t)
    (w : World) (email : string) :
  UserForm.cleaned_data self !! "email" = Some email →
  (is_Some (auth_user w !! email) →
   (SignupForm.clean_email (self, w)).1
   = Raise (ValidationError "This email is already registered"))
  ∧ (auth_user w !! email = None →
     (SignupForm.clean_email (self, w)).1 = Return email).
Proof.
  intros Hemail.
  rewrite (SignupForm_clean_email_run self w email) by done. simpl.
  split; [intros [user ->]|intros ->]; reflexivity.
Qed.

(** [save] on a form whose cleaned data holds an e-mail and a password,
    when no user has the e-mail as username yet. *)
Lemma SignupForm_save_run (self : UserForm.t) (w : World)
    (email raw_password : string) :
  UserForm.cleaned_data self !! "email" = Some email →
  UserForm.cleaned_data self !! "password" = Some raw_password →
  auth_user w !! email = None →
  let created :=
    {| username := email; Django.email := normalize_email email;
       password := make_password raw_password; is_active := true |} in
  let inactive :=
    {| username := email; Django.email := normalize_email email;
       password := make_password raw_password; is_active := false |} in
  let flags := editable_settings (settings w) in
  SignupForm.save (self, w)
  = if ACCOUNTS_VERIFICATION_REQUIRED flags then
      (Return inactive,
       (self,
        {| auth_user := <[email := inactive]> (<[email := created]> (auth_user w));
           settings := flags;
           calls := ((calls w ++ [Call_create_user email email raw_password])
                       ++ [Call_use_editable]) ++ [Call_user_save inactive] |}))
    else
      (Return created,
       ({| UserForm.initial := UserForm.initial self;
           UserForm.data := UserForm.data self;
           UserForm.cleaned_data := UserForm.cleaned_data self;
           UserForm._user :=
             Some (backend_authenticate (<[email := created]> (auth_user w))
                                        email raw_password) |},
        {| auth_user := <[email := created]> (auth_user w);
           settings := flags;
           calls := ((calls w ++ [Call_create_user email email raw_password])
                       ++ [Call_use_editable])
                    ++ [Call_authenticate email raw_password] |})).
Proof.
  intros Hemail Hpassword Hfree. unfold SignupForm.save. run_py.
  rewrite Hemail. run_py. rewrite Hpassword. run_py. simpl.
  rewrite Hfree. run_py. simpl.
  destruct (ACCOUNTS_VERIFICATION_REQUIRED _); run_py; simpl; [done|].
  by rewrite Hemail, Hpassword.
Qed.

(** C3: [save] on a form whose cleaned data holds the submitted e-mail
    and password, when no user has the e-mail as username yet, returns a
    user that was not in the user table before, is in it afterwards, and
    has the e-mail as username. With the verification flag set (as read
    after the settings refresh) the user is stored inactive, the form
    is left as it was and the framework calls made are the creation, the
    refresh and the save of the user: no call of authenticate, none of
    login. With the flag unset the user is active, the calls made are
    the creation, the refresh and authenticate with the submitted e-mail
    and password, whose result the form keeps: no call of login. *)
Theorem SignupForm_save_creates_user (self : UserForm.t) (w : World)
    (email raw_password : string) :
  UserForm.cleaned_data self !! "email" = Some email →
  UserForm.cleaned_data self !! "password" = Some raw_password →
  auth_user w !! email = None →
  ∃ user self' w',
    SignupForm.save (self, w) = (Return user, (self', w'))
    ∧ username user = email
    ∧ auth_user w' !! email = Some user
    ∧ (∀ name, name ≠ email → auth_user w' !! name = auth_user w !! name)
    ∧ if ACCOUNTS_VERIFICATION_REQUIRED (editable_settings (settings w))
      then
        is_active user = false
        ∧ self' = self
        ∧ calls w' = (calls w ++ [Call_create_user email email raw_password;
                                  Call_use_editable; Call_user_save user])%list
      else
        is_active user = true
        ∧ UserForm._user self'
          = Some (backend_authenticate (auth_user w') email raw_password)
        ∧ calls w' = (calls w ++ [Call_create_user email email raw_password;
                                  Call_use_editable;
                                  Call_authenticate email raw_password])%list.
Proof.
  intros Hemail Hpassword Hfree.
  rewrite (SignupForm_save_run self w email raw_password) by done.
  destruct (ACCOUNTS_VERIFICATION_REQUIRED _);
    do 3 eexists; (split; [reflexivity|]); simpl.
  - split_and!; try done.
    + apply lookup_insert_eq.
    + intros name Hname. by rewrite !lookup_insert_ne.
    + by rewrite <- !app_assoc.
  - split_and!; try done.
    + apply lookup_insert_eq.
    + intros name Hname. by rewrite lookup_insert_ne.
    + by rewrite <- !app_assoc.
Qed.

End signup.

Section login.
Context `{!Framework}.

(** [clean] when both fields passed their own validation: one call of
    authenticate, whose result the form keeps and the outcome follows. *)
Lemma LoginForm_clean_run (self : UserForm.t) (w : World)
    (email raw_password : string) :
  UserForm.cleaned_data self !! "email" = Some email →
  UserForm.cleaned_data self !! "password" = Some raw_password →
  let found := backend_authenticate (auth_user w) email raw_password in
  LoginForm.clean (self, w)
  = (match found with
     | None => Raise (ValidationError "Invalid email/password")
     | Some user =>
         if is_active user then Return (UserForm.cleaned_data self)
         else Raise (ValidationError "Your account is inactive")
     end,
     ({| UserForm.initial := UserForm.initial self;
         UserForm.data := UserForm.data self;
         UserForm.cleaned_data := UserForm.cleaned_data self;
         UserForm._user := Some found |},
      {| auth_user := auth_user w; settings := settings w;
         calls := calls w ++ [Call_authenticate email raw_password] |})).
Proof.
  intros Hemail Hpassword found. unfold LoginForm.clean. run_py.
  rewrite Hemail, Hpassword.
  rewrite !bool_decide_eq_true_2 by eauto. cbn [andb]. run_py.
  rewrite !Hemail, !Hpassword. simpl. fold found.
  destruct found as [user|]; [|done]. by destruct (is_active user).
Qed.

(** When a field failed its own validation, [clean] returns the cleaned
    data without calling authenticate. *)
Lemma LoginForm_clean_skips (self : UserForm.t) (w : World) :
  UserForm.cleaned_data self !! "email" = None
  ∨ UserForm.cleaned_data self !! "password" = None →
  LoginForm.clean (self, w) = (Return (UserForm.cleaned_data self), (self, w)).
Proof.
  intros Hmissing. unfold LoginForm.clean. run_py.
  destruct Hmissing as [-> | ->].
  - by rewrite bool_decide_eq_false_2 by (by intros [? [=]]).
  - rewrite (bool_decide_eq_false_2 (is_Some None)) by (by intros [? [=]]).
    by rewrite andb_false_r.
Qed.

(** C4: when the cleaned data holds both the e-mail and the password,
    whole-form validation of the login form calls authenticate with
    them, once, and then: it raises the invalid-credentials error
    exactly when the authenticator found no user; it raises the
    inactive-account error exactly when the authenticator found a user
    that is not active; it passes, returning the cleaned data, exactly
    when the authenticator found an active user. *)
Theorem LoginForm_clean_outcome (self : UserForm.t) (w : World)
    (email raw_password : string) :
  UserForm.cleaned_data self !! "email" = Some email →
  UserForm.cleaned_data self !! "password" = Some raw_password →
  let found := backend_authenticate (auth_user w) email raw_password in
  let outcome := (LoginForm.clean (self, w)).1 in
  calls (LoginForm.clean (self, w)).2.2
  = (calls w ++ [Call_authenticate email raw_password])%list
  ∧ (outcome = Raise (ValidationError "Invalid email/password")
     ↔ found = None)
  ∧ (outcome = Raise (ValidationError "Your account is inactive")
     ↔ ∃ user, found = Some user ∧ is_active user = false)
  ∧ (outcome = Return (UserForm.cleaned_data self)
     ↔ ∃ user, found = Some user ∧ is_active user = true)
  ∧ (∀ cleaned, outcome = Return cleaned →
       cleaned = UserForm.cleaned_data self).
Proof.
  intros Hemail Hpassword found outcome. subst outcome.
  rewrite (LoginForm_clean_run self w email raw_password) by done.
  fold found. cbn [fst snd calls].
  destruct found as [user|]; [destruct (is_active user) eqn:Hactive|].
  - split_and!; [done|done| | |by intros ? [= <-]].
    + split; [done|]. intros (user' & [= <-] & Hinactive). congruence.
    + split; [by eauto|done].
  - split_and!; [done|done| | |done].
    + split; [by eauto|done].
    + split; [done|]. intros (user' & [= <-] & Hact). congruence.
  - split_and!; [done|done| | |done].
    + split; [done|]. by intros (user' & [=] & _).
    + split; [done|]. by intros (user' & [=] & _).
Qed.

End login.

(** The example framework on the example user table. *)

(** A registered e-mail is rejected whatever the password; a new one
    is returned. *)
Lemma SignupForm_clean_email_rejects_registered_witness :
  (SignupForm.clean_email
     (Demo.submitted "alice@example.com" "anything", Demo.world false)).1
  = Raise (ValidationError "This email is already registered")
  ∧ (SignupForm.clean_email
       (Demo.submitted "erin@example.com" "pw", Demo.world false)).1
    = Return "erin@example.com".
Proof.
  split.
  - apply (SignupForm_clean_email_rejects_registered
             (Demo.submitted "alice@example.com" "anything")
             (Demo.world false) "alice@example.com");
      [reflexivity|by vm_compute; eauto].
  - apply (SignupForm_clean_email_rejects_registered
             (Demo.submitted "erin@example.com" "pw")
             (Demo.world false) "erin@example.com");
      [reflexivity|by vm_compute].
Defined.

(** Signing up a new e-mail where verification is required. *)
Lemma SignupForm_save_creates_user_witness :
  ∃ user self' w',
    @SignupForm.save Demo.framework
      (Demo.submitted "erin@example.com" "pw", Demo.world true)
    = (Return user, (self', w'))
    ∧ username user = "erin@example.com"
    ∧ is_active user = false.
Proof.
  destruct (@SignupForm_save_creates_user Demo.framework
              (Demo.submitted "erin@example.com" "pw") (Demo.world true)
              "erin@example.com" "pw")
    as (user & self' & w' & Hsave & Hname & _ & _ & Hflag);
    [reflexivity|reflexivity|by vm_compute|].
  exists user, self', w'. split_and!; [exact Hsave|exact Hname|].
  simpl in Hflag. apply Hflag.
Defined.

(** Bob's password is right but his account is inactive. *)
Lemma LoginForm_clean_outcome_witness :
  (@LoginForm.clean Demo.framework
     (Demo.submitted "bob@example.com" "hunter2", Demo.world false)).1
  = Raise (ValidationError "Your account is inactive").
Proof.
  apply (@LoginForm_clean_outcome Demo.framework
           (Demo.submitted "bob@example.com" "hunter2") (Demo.world false)
           "bob@example.com" "hunter2");
    [reflexivity|reflexivity|].
  exists Demo.bob. by vm_compute.
Defined.

(** Where verification is not required the new user is active and the
    form has authenticated it; nothing has logged it in. *)
Example SignupForm_save_without_verification :
  let result := @SignupForm.save Demo.framework
                  (Demo.submitted "erin@example.com" "pw", Demo.world false) in
  result.1
  = Return {| username := "erin@example.com"; email := "erin@example.com";
              password := "pw"; is_active := true |}
  ∧ UserForm._user result.2.1
    = Some (Some {| username := "erin@example.com";
                    email := "erin@example.com";
                    password := "pw"; is_active := true |})
  ∧ calls result.2.2
    = [Call_create_user "erin@example.com" "erin@example.com" "pw";
       Call_use_editable; Call_authenticate "erin@example.com" "pw"].
Proof. by vm_compute. Qed.

(** Signing up an e-mail that is taken, without validating first. *)
Example SignupForm_save_taken :
  (@SignupForm.save Demo.framework
     (Demo.submitted "alice@example.com" "pw", Demo.world false)).1
  = Raise IntegrityError.
Proof. by vm_compute. Qed.

Example LoginForm_clean_wrong_password :
  (@LoginForm.clean Demo.framework
     (Demo.submitted "alice@example.com" "guess", Demo.world false)).1
  = Raise (ValidationError "Invalid email/password").
Proof. by vm_compute. Qed.

Example LoginForm_clean_active_user :
  (@LoginForm.clean Demo.framework
     (Demo.submitted "alice@example.com" "secret", Demo.world false)).1
  = Return {[ "email" := "alice@example.com"; "password" := "secret" ]}.
Proof. by vm_compute. Qed.

(** ** Model forms *)

Section model_forms.
Import SortedDict SortedDictFacts.

Lemma fmap_pair_fst {A} (g : string → A) (names : list string) :
  ((fun f => (f, g f)) <$> names).*1 = names.
Proof.
  induction names as [|f names IH]; [done|]. csimpl. by rewrite IH.
Qed.

Lemma fmap_Some_fst {A} (d : t A) :
  ((fun kv => (kv.1, Some kv.2)) <$> d).*1 = keys d.
Proof.
  unfold keys. induction d as [|[k v] d IH]; [done|]. csimpl. by rewrite IH.
Qed.

(** What [fields_for_model] holds for a list of names. *)
Lemma get_fields_for_model (model : ModelClass) (names : list string)
    (k : string) :
  get (ModelForm.fields_for_model model (Some names)) k
  = if decide (k ∈ names ∧ k ∉ ignored model)
    then Some (get (formfields model) k) else None.
Proof.
  unfold ModelForm.fields_for_model, of_items.
  rewrite (get_update_fun _ _ (get (formfields model))).
  - rewrite fmap_pair_fst.
    destruct (decide (k ∈ filter _ names)) as [Hk|Hk];
      rewrite list_elem_of_filter in Hk.
    + rewrite decide_True; [done|]. by destruct Hk.
    + rewrite decide_False; [done|]. by intros [??]; apply Hk.
  - intros k' v' (f & [= -> ->] & _)%list_elem_of_fmap. done.
Qed.

Section metaclass.
Variables (model : ModelClass) (names : list string).
Variables (declared base_fields : t Field).
Hypothesis declared_NoDup : NoDup (keys declared).
Hypothesis metaclass_returns :
  ModelForm.metaclass model (Some names) declared = Return base_fields.

Let updated : t (option Field) :=
  update (ModelForm.fields_for_model model (Some names))
         ((fun kv => (kv.1, Some kv.2)) <$> declared).

Lemma metaclass_base_fields :
  base_fields = omap (fun kv => pair kv.1 <$> kv.2) updated.
Proof using metaclass_returns.
  unfold ModelForm.metaclass in metaclass_returns.
  destruct (filter _ _) in metaclass_returns; [|done].
  by injection metaclass_returns as <-.
Qed.

Lemma metaclass_no_missing (k : string) :
  k ∈ names → k ∉ ignored model → k ∉ keys declared →
  is_Some (get (formfields model) k).
Proof using metaclass_returns.
  intros Hname Hignored Hdeclared.
  unfold ModelForm.metaclass in metaclass_returns.
  destruct (filter _ _) as [|missing ?] eqn:Hmissing
    in metaclass_returns; [|done].
  destruct (get (formfields model) k) as [field|] eqn:Hk; [by eauto|].
  exfalso.
  assert (k ∈ @nil string) as Hin; [|by apply elem_of_nil in Hin].
  rewrite <- Hmissing. apply list_elem_of_filter. split; [done|].
  apply list_elem_of_fmap. exists (k, None). split; [done|].
  apply list_elem_of_filter. split; [done|].
  apply get_Some_elem_of. rewrite get_fields_for_model.
  by rewrite decide_True, Hk.
Qed.

Lemma updated_NoDup : NoDup (keys updated).
Proof. apply NoDup_keys_update, NoDup_keys_of_items. Qed.

Lemma get_updated (k : string) :
  get updated k
  = if decide (k ∈ keys declared) then Some (get declared k)
    else if decide (k ∈ names ∧ k ∉ ignored model)
         then Some (get (formfields model) k)
         else None.
Proof using declared_NoDup.
  unfold updated.
  rewrite (get_update_fun _ _ (get declared)), fmap_Some_fst,
    get_fields_for_model; [done|].
  intros k' v' ([k0 v0] & [= -> ->] & Hin)%list_elem_of_fmap. simpl.
  symmetry. by apply get_NoDup.
Qed.

(** The keys of [base_fields] are distinct. *)
Lemma metaclass_NoDup : NoDup (keys base_fields).
Proof using metaclass_returns.
  rewrite metaclass_base_fields.
  eapply sublist_NoDup; [apply updated_NoDup|apply keys_omap_sublist].
Qed.

(** A declared field overrides a model field of its name. *)
Lemma metaclass_get_declared (k : string) :
  k ∈ keys declared → get base_fields k = get declared k.
Proof using declared_NoDup metaclass_returns.
  intros Hk. rewrite metaclass_base_fields, get_omap by apply updated_NoDup.
  rewrite get_updated, decide_True by done. done.
Qed.

(** Any other named field is the model's. *)
Lemma metaclass_get_model (k : string) :
  k ∈ names → k ∉ ignored model → k ∉ keys declared →
  get base_fields k = get (formfields model) k.
Proof using declared_NoDup metaclass_returns.
  intros Hname Hignored Hk.
  rewrite metaclass_base_fields, get_omap by apply updated_NoDup.
  rewrite get_updated, decide_False, decide_True by done. done.
Qed.

(** The form has the named fields that are not ignored and the
    declared ones, no other. *)
Lemma metaclass_keys (k : string) :
  k ∈ keys base_fields
  ↔ (k ∈ names ∧ k ∉ ignored model) ∨ k ∈ keys declared.
Proof using declared_NoDup metaclass_returns.
  rewrite <- get_is_Some.
  destruct (decide (k ∈ keys declared)) as [Hdeclared|Hdeclared].
  - rewrite metaclass_get_declared, get_is_Some by done. by intuition.
  - destruct (decide (k ∈ names ∧ k ∉ ignored model)) as [[Hname Hk]|Hname].
    + rewrite metaclass_get_model by done.
      split; [by left|]. intros _. by apply metaclass_no_missing.
    + rewrite metaclass_base_fields, get_omap by apply updated_NoDup.
      rewrite get_updated, !decide_False by done. simpl.
      split; [by intros [? [=]]|by intros [?|?]].
Qed.

End metaclass.

(** The class statement succeeds when every name is a model field, an
    ignored one or a declared one. *)
Lemma metaclass_returns_when_named (model : ModelClass)
    (names : list string) (declared : t Field) :
  (∀ k, k ∈ names →
        k ∈ keys (formfields model) ∨ k ∈ ignored model
        ∨ k ∈ keys declared) →
  ∃ base_fields,
    ModelForm.metaclass model (Some names) declared = Return base_fields.
Proof.
  intros Hnamed. unfold ModelForm.metaclass.
  destruct (filter _ _) as [|missing rest] eqn:Hmissing; [by eauto|].
  exfalso.
  assert (missing ∈ missing :: rest) as Hin by by left.
  rewrite <- Hmissing in Hin.
  apply list_elem_of_filter in Hin as [Hdeclared Hnone].
  apply list_elem_of_fmap in Hnone as ([k v] & -> & Hnone).
  apply list_elem_of_filter in Hnone as [Hv Hin]. simpl in *. subst v.
  apply (get_NoDup (ModelForm.fields_for_model model (Some names))) in Hin;
    [|apply NoDup_keys_of_items].
  rewrite get_fields_for_model in Hin.
  case_decide as Hk; [destruct Hk as [Hk Hignored]|done].
  injection Hin as Hget. apply get_None in Hget.
  destruct (Hnamed k Hk) as [?|[?|?]]; done.
Qed.

End model_forms.

(** ** The dynamic inline admin form *)

(** C7: the constructor of the dynamic inline form gives the form of
    the standard model form constructor, except that, when the model
    class is a subclass of the orderable base class, the field
    [_order] is an optional character field with the order widget, all
    other fields being those of the standard form; when it is not, the
    form is the standard one. *)
Theorem DynamicInlineAdminForm_init_order_field (model : ModelClass)
    (Meta_fields : option (list string)) (base_fields : SortedDict.t Field)
    (instance : option Model) (initial : option (gmap string PyVal))
    (data files : option (gmap string string)) :
  let self :=
    DynamicInlineAdminForm.__init__ model Meta_fields base_fields instance
                                    initial data files in
  let standard :=
    ModelForm.__init__ model Meta_fields base_fields instance initial
                       data files in
  if issubclass model DynamicInlineAdminForm.Orderable then
    (∃ order,
       SortedDict.get (ModelForm.fields self) "_order" = Some order
       ∧ field_class order = CharField
       ∧ widget_class (widget order) = OrderWidget.cls
       ∧ required order = false
       ∧ label order = Some "Order")
    ∧ (∀ k, k ∈ SortedDict.keys (ModelForm.fields self)
            ↔ k = "_order" ∨ k ∈ SortedDict.keys (ModelForm.fields standard))
    ∧ (∀ k, k ≠ "_order" →
            SortedDict.get (ModelForm.fields self) k
            = SortedDict.get (ModelForm.fields standard) k)
  else self = standard.
Proof.
  intros self standard. subst self standard.
  unfold DynamicInlineAdminForm.__init__.
  cbn [ModelForm.__init__ ModelForm.model ModelForm.fields].
  destruct (issubclass model _); [|done].
  cbn [ModelForm.fields]. split_and!.
  - eexists. split; [apply SortedDictFacts.get_set_eq|done].
  - intros k. apply SortedDictFacts.elem_of_keys_set.
  - intros k Hk. by apply SortedDictFacts.get_set_ne.
Qed.

(** The model field [_order] of an orderable model is replaced where
    it stands. *)
Example DynamicInlineAdminForm_init_orderable :
  (fun kv => (kv.1, (field_class kv.2, wc_name (widget_class (widget kv.2)))))
    <$> ModelForm.fields
          (DynamicInlineAdminForm.__init__ Demo.Slide None
             (formfields Demo.Slide) None None None None)
  = [("caption", (CharField, "TextInput"));
     ("_order", (CharField, "OrderWidget"))].
Proof. reflexivity. Qed.

Example DynamicInlineAdminForm_init_not_orderable :
  SortedDict.keys
    (ModelForm.fields
       (DynamicInlineAdminForm.__init__ Demo.Event None
          (formfields Demo.Event) None None None None))
  = ["title"; "start_date"].
Proof. reflexivity. Qed.

(** ** The in-line edit form *)

Section edit_form.
Context `{!Framework}.
Import SortedDict SortedDictFacts.

Lemma init_field_inv (settings : Settings) (uuid f : string)
    (fields fields' : t Field) :
  EditForm.init_field settings uuid fields f = Return fields' →
  ∃ field before,
    get fields f = Some field
    ∧ EditForm.override_widget field = Return before
    ∧ fields'
      = set fields f
          (EditForm.with_widget field
             (EditForm.set_attrs settings uuid f field before)).
Proof.
  unfold EditForm.init_field.
  destruct (get fields f) as [field|]; [|done]. cbn.
  destruct (EditForm.override_widget field) as [before|] eqn:Hov; [|done].
  cbv [mbind mret Outcome_bind Outcome_ret].
  intros [= <-]. by eauto.
Qed.

Lemma init_field_returns (settings : Settings) (uuid f : string)
    (fields : t Field) (field : Field) (before : Widget) :
  get fields f = Some field →
  EditForm.override_widget field = Return before →
  EditForm.init_field settings uuid fields f
  = Return (set fields f
              (EditForm.with_widget field
                 (EditForm.set_attrs settings uuid f field before))).
Proof.
  intros Hget Hov. unfold EditForm.init_field.
  rewrite Hget. cbn [mbind Outcome_bind]. by rewrite Hov.
Qed.

(** The loop goes over distinct keys of the dictionary: each of them
    gets its turn, on the field the dictionary had at the start, and
    the other entries stay. *)
Lemma for_in_init_field (settings : Settings) (uuid : string)
    (ks : list string) (fields fields' : t Field) :
  NoDup ks →
  EditForm.for_in (EditForm.init_field settings uuid) ks fields
  = Return fields' →
  keys fields' = keys fields
  ∧ (∀ f, f ∈ ks →
       ∃ field before,
         get fields f = Some field
         ∧ EditForm.override_widget field = Return before
         ∧ get fields' f
           = Some (EditForm.with_widget field
                     (EditForm.set_attrs settings uuid f field before)))
  ∧ (∀ f, f ∉ ks → get fields' f = get fields f).
Proof.
  revert fields.
  induction ks as [|k ks IH]; intros fields Hks Hloop.
  - injection Hloop as <-. split_and!; [done| |done].
    by intros f ?%elem_of_nil.
  - apply NoDup_cons in Hks as [Hk Hks]. cbn in Hloop.
    destruct (EditForm.init_field settings uuid fields k)
      as [fields1|] eqn:Hturn; [|done]. cbn in Hloop.
    apply init_field_inv in Hturn as (field & before & Hget & Hov & ->).
    destruct (IH _ Hks Hloop) as (Hkeys & Hin & Hout).
    split_and!.
    + rewrite Hkeys. apply keys_set_present, get_is_Some. by eauto.
    + intros f [->|Hf]%elem_of_cons.
      * exists field, before. split_and!; [done|done|].
        by rewrite Hout, get_set_eq.
      * destruct (Hin f Hf) as (field' & before' & Hget' & Hov' & Hf').
        rewrite get_set_ne in Hget' by (by intros ->).
        by eauto.
    + intros f [Hne Hf]%not_elem_of_cons.
      rewrite Hout, get_set_ne by done. done.
Qed.

(** The loop returns when every field's widget can be chosen. *)
Lemma for_in_init_field_returns (settings : Settings) (uuid : string)
    (ks : list string) (fields : t Field) :
  NoDup ks →
  (∀ f, f ∈ ks →
        ∃ field before,
          get fields f = Some field
          ∧ EditForm.override_widget field = Return before) →
  ∃ fields',
    EditForm.for_in (EditForm.init_field settings uuid) ks fields
    = Return fields'.
Proof.
  revert fields.
  induction ks as [|k ks IH]; intros fields Hks Hall; [by eexists|].
  apply NoDup_cons in Hks as [Hk Hks].
  destruct (Hall k) as (field & before & Hget & Hov); [by left|].
  cbn [EditForm.for_in].
  rewrite (init_field_returns _ _ _ _ _ _ Hget Hov).
  cbn [mbind Outcome_bind]. apply IH; [done|].
  intros f Hf. rewrite get_set_ne by (by intros ->).
  apply Hall. by right.
Qed.

(** With a table of widget classes that has the three field types,
    the widget of every field can be chosen. *)
Lemma override_widget_returns (field : Field) :
  (∀ field_type,
     field_type ∈ [fields_DATE; fields_DATE_TIME; fields_EMAIL] →
     is_Some (fields_WIDGETS !! field_type)) →
  ∃ before, EditForm.override_widget field = Return before.
Proof.
  intros Hcomplete. unfold EditForm.override_widget, EditForm.widget_overrides.
  destruct (field_class field); try by eauto.
  - destruct (Hcomplete fields_DATE) as [cls ->]; [set_solver|by eauto].
  - destruct (Hcomplete fields_DATE_TIME) as [cls ->]; [set_solver|by eauto].
  - destruct (Hcomplete fields_EMAIL) as [cls ->]; [set_solver|by eauto].
Qed.

(** What the widget of a field is when the substitution is over. *)
Lemma override_widget_inv (field : Field) (before : Widget) :
  EditForm.override_widget field = Return before →
  match field_class field with
  | DateField =>
      ∃ cls, fields_WIDGETS !! fields_DATE = Some cls
             ∧ before = instantiate cls
  | DateTimeField =>
      ∃ cls, fields_WIDGETS !! fields_DATE_TIME = Some cls
             ∧ before = instantiate cls
  | EmailField =>
      ∃ cls, fields_WIDGETS !! fields_EMAIL = Some cls
             ∧ before = instantiate cls
  | _ => before = widget field
  end.
Proof.
  unfold EditForm.override_widget, EditForm.widget_overrides.
  destruct (field_class field); [| | |by intros [= <-]..].
  - destruct (fields_WIDGETS !! fields_DATE) as [cls|]; [|done].
    intros [= <-]. by eauto.
  - destruct (fields_WIDGETS !! fields_DATE_TIME) as [cls|]; [|done].
    intros [= <-]. by eauto.
  - destruct (fields_WIDGETS !! fields_EMAIL) as [cls|]; [|done].
    intros [= <-]. by eauto.
Qed.

Lemma declared_fields_NoDup : NoDup (keys EditForm.declared_fields).
Proof. apply (bool_decide_unpack _). by vm_compute. Qed.

(** A form that [get_edit_form] returns, taken apart: the class had
    base fields, the constructor's loop went over them, and the rest
    of the form is what [ModelForm.__init__] made. *)
Lemma get_edit_form_inv (settings : Settings) (uuid4 : string) (obj : Model)
    (field_names : string) (data files : option (gmap string string))
    (self : EditForm.t) :
  get_edit_form settings uuid4 obj field_names data files = Return self →
  ∃ base_fields,
    EditForm_base_fields obj field_names = Return base_fields
    ∧ EditForm.for_in (EditForm.init_field settings uuid4)
        (keys base_fields) base_fields
      = Return (ModelForm.fields (EditForm.form self))
    ∧ EditForm.uuid self = uuid4
    ∧ ModelForm.model (EditForm.form self) = __class__ obj
    ∧ ModelForm.instance (EditForm.form self) = Some obj
    ∧ ModelForm.Meta_fields (EditForm.form self)
      = Some (split "," field_names)
    ∧ ModelForm.data (EditForm.form self) = data
    ∧ ModelForm.files (EditForm.form self) = files
    ∧ ModelForm.initial (EditForm.form self)
      = ({[ "app" := PStr (app_label (_meta (__class__ obj)));
            "id" := id obj;
            "fields" := PStr field_names;
            "model" := PStr (lower (object_name (_meta (__class__ obj)))) ]}
         : gmap string PyVal)
        ∪ ModelForm.model_to_dict obj (Some (split "," field_names)).
Proof.
  unfold get_edit_form.
  destruct (EditForm_base_fields obj field_names) as [base_fields|]; [|done].
  cbn. unfold EditForm.__init__. cbn [ModelForm.__init__ ModelForm.fields].
  destruct (EditForm.for_in _ _ _) as [fields|] eqn:Hloop; [|done]. cbn.
  intros [= <-]. exists base_fields. by split_and!.
Qed.

(** Every field of the returned form is a base field of the class
    after its turn of the loop. *)
Lemma get_edit_form_fields (settings : Settings) (uuid4 : string)
    (obj : Model) (field_names : string)
    (data files : option (gmap string string))
    (self : EditForm.t) (base_fields : t Field) :
  EditForm_base_fields obj field_names = Return base_fields →
  get_edit_form settings uuid4 obj field_names data files = Return self →
  keys (ModelForm.fields (EditForm.form self)) = keys base_fields
  ∧ ∀ f field,
      get base_fields f = Some field →
      ∃ before,
        EditForm.override_widget field = Return before
        ∧ get (ModelForm.fields (EditForm.form self)) f
          = Some (EditForm.with_widget field
                    (EditForm.set_attrs settings uuid4 f field before)).
Proof.
  intros Hbase (base' & Hbase' & Hloop & _)%get_edit_form_inv.
  rewrite Hbase in Hbase'. injection Hbase' as <-.
  apply for_in_init_field in Hloop as (Hkeys & Hin & _).
  - split; [done|]. intros f field Hget.
    destruct (Hin f) as (field' & before & Hget' & Hov & Hf).
    + apply get_is_Some. by eauto.
    + rewrite Hget in Hget'. injection Hget' as <-. by eauto.
  - eapply metaclass_NoDup. apply Hbase.
Qed.

End edit_form.

Section get_edit_form_properties.
Context `{!Framework}.
Import SortedDict SortedDictFacts.

Lemma get_edit_form_returns (settings : Settings) (uuid4 : string)
    (obj : Model) (field_names : string)
    (data files : option (gmap string string)) :
  (∀ f, f ∈ split "," field_names →
        f ∈ keys (formfields (__class__ obj))
        ∨ f ∈ ignored (__class__ obj)
        ∨ f ∈ keys EditForm.declared_fields) →
  (∀ field_type,
     field_type ∈ [fields_DATE; fields_DATE_TIME; fields_EMAIL] →
     is_Some (fields_WIDGETS !! field_type)) →
  ∃ self, get_edit_form settings uuid4 obj field_names data files
          = Return self.
Proof.
  intros Hnamed Hcomplete. unfold get_edit_form.
  destruct (metaclass_returns_when_named (__class__ obj)
              (split "," field_names) EditForm.declared_fields)
    as [base_fields Hbase]; [done|].
  unfold EditForm_base_fields. rewrite Hbase. cbn [mbind Outcome_bind].
  unfold EditForm.__init__. cbn [ModelForm.__init__ ModelForm.fields].
  destruct (for_in_init_field_returns settings uuid4 (keys base_fields)
              base_fields) as [fields ->]; [| |by eexists].
  - eapply metaclass_NoDup, Hbase.
  - intros f [field Hget]%get_is_Some.
    destruct (override_widget_returns field Hcomplete) as [before Hov].
    by eauto.
Qed.

Lemma initial_lookup (a i f m : PyVal) (rest : gmap string PyVal) :
  let initial : gmap string PyVal :=
    ({[ "app" := a; "id" := i; "fields" := f; "model" := m ]}
       : gmap string PyVal) ∪ rest in
  initial !! "app" = Some a ∧ initial !! "model" = Some m
  ∧ initial !! "id" = Some i ∧ initial !! "fields" = Some f.
Proof.
  intros initial. subst initial.
  split_and!; apply lookup_union_Some_l; by simplify_map_eq.
Qed.

(** C5: for an object and a string of comma-separated names that are
    all editable fields of the object's model with a form field (and a
    widget table that has the three overridden field types),
    [get_edit_form] returns a form bound to the object whose list of
    model fields is the list of names in the string; the fields of the
    form are these names and the four hidden fields, each name other
    than the hidden four being the model's field; and the initial data
    holds the object's app label under [app], its lower-cased model
    name under [model], its id under [id] and the string itself under
    [fields]. *)
Theorem get_edit_form_restricts_fields (settings : Settings)
    (uuid4 : string) (obj : Model) (field_names : string)
    (data files : option (gmap string string)) :
  (∀ f, f ∈ split "," field_names →
        f ∈ keys (formfields (__class__ obj))
        ∧ f ∉ ignored (__class__ obj)) →
  (∀ field_type,
     field_type ∈ [fields_DATE; fields_DATE_TIME; fields_EMAIL] →
     is_Some (fields_WIDGETS !! field_type)) →
  ∃ self,
    get_edit_form settings uuid4 obj field_names data files = Return self
    ∧ ModelForm.model (EditForm.form self) = __class__ obj
    ∧ ModelForm.instance (EditForm.form self) = Some obj
    ∧ ModelForm.Meta_fields (EditForm.form self)
      = Some (split "," field_names)
    ∧ (∀ f, f ∈ keys (ModelForm.fields (EditForm.form self))
            ↔ f ∈ split "," field_names
              ∨ f ∈ ["app"; "model"; "id"; "fields"])
    ∧ (∀ f, f ∈ split "," field_names →
            f ∉ ["app"; "model"; "id"; "fields"] →
            ∃ field field',
              get (formfields (__class__ obj)) f = Some field
              ∧ get (ModelForm.fields (EditForm.form self)) f = Some field'
              ∧ field_class field' = field_class field
              ∧ required field' = required field
              ∧ label field' = label field)
    ∧ ModelForm.initial (EditForm.form self) !! "app"
      = Some (PStr (app_label (_meta (__class__ obj))))
    ∧ ModelForm.initial (EditForm.form self) !! "model"
      = Some (PStr (lower (object_name (_meta (__class__ obj)))))
    ∧ ModelForm.initial (EditForm.form self) !! "id" = Some (id obj)
    ∧ ModelForm.initial (EditForm.form self) !! "fields"
      = Some (PStr field_names).
Proof.
  intros Hnamed Hcomplete.
  destruct (get_edit_form_returns settings uuid4 obj field_names data files)
    as [self Hself]; [by intros f [??]%Hnamed; left|done|].
  exists self. split; [done|].
  destruct (get_edit_form_inv _ _ _ _ _ _ _ Hself)
    as (base_fields & Hbase & _ & _ & Hmodel & Hinstance & Hmeta & _ & _
        & Hinitial).
  destruct (get_edit_form_fields _ _ _ _ _ _ _ _ Hbase Hself)
    as [Hkeys Hfields].
  split_and!; [done|done|done| | |..].
  - intros f. rewrite Hkeys.
    rewrite (metaclass_keys _ _ _ _ declared_fields_NoDup Hbase f).
    split; [by intros [[??]|?]; [left|right]|].
    intros [Hf|?]; [left|by right]. split; [done|by apply Hnamed].
  - intros f Hf Hhidden. destruct (Hnamed f Hf) as [Hfield Hignored].
    apply get_is_Some in Hfield as [field Hfield].
    destruct (Hfields f field) as (before & _ & Hget).
    { by rewrite (metaclass_get_model _ _ _ _ declared_fields_NoDup Hbase). }
    by eauto 10.
  - rewrite Hinitial. apply initial_lookup.
  - rewrite Hinitial. apply initial_lookup.
  - rewrite Hinitial. apply initial_lookup.
  - rewrite Hinitial. apply initial_lookup.
Qed.

End get_edit_form_properties.

Section edit_form_widgets.
Context `{!Framework}.
Import SortedDict SortedDictFacts.

Lemma set_attrs_class (settings : Settings) (uuid f : string)
    (field : Field) (before : Widget) :
  attrs (EditForm.set_attrs settings uuid f field before) !! "class"
  = Some (default "" (attrs before !! "class") +:+ " "
          +:+ lower (__name__ (field_class field))).
Proof.
  unfold EditForm.set_attrs. cbn [attrs].
  destruct (FORMS_USE_HTML5 settings && required field);
    rewrite ?lookup_insert_ne by done; apply lookup_insert_eq.
Qed.

Lemma set_attrs_id (settings : Settings) (uuid f : string)
    (field : Field) (before : Widget) :
  attrs (EditForm.set_attrs settings uuid f field before) !! "id"
  = Some (f +:+ "-" +:+ uuid).
Proof.
  unfold EditForm.set_attrs. cbn [attrs].
  destruct (FORMS_USE_HTML5 settings && required field);
    rewrite ?lookup_insert_ne by done; apply lookup_insert_eq.
Qed.

Lemma set_attrs_required (settings : Settings) (uuid f : string)
    (field : Field) (before : Widget) :
  attrs (EditForm.set_attrs settings uuid f field before) !! "required"
  = if FORMS_USE_HTML5 settings && required field then Some ""
    else attrs before !! "required".
Proof.
  unfold EditForm.set_attrs. cbn [attrs].
  destruct (FORMS_USE_HTML5 settings && required field).
  - apply lookup_insert_eq.
  - by rewrite !lookup_insert_ne.
Qed.

Lemma set_attrs_other (settings : Settings) (uuid f : string)
    (field : Field) (before : Widget) (k : string) :
  k ∉ ["class"; "id"; "required"] →
  attrs (EditForm.set_attrs settings uuid f field before) !! k
  = attrs before !! k.
Proof.
  intros Hk. unfold EditForm.set_attrs. cbn [attrs].
  destruct (FORMS_USE_HTML5 settings && required field);
    rewrite !lookup_insert_ne; set_solver.
Qed.

(** C6: a form that [get_edit_form] returns has the fields of its
    class, and for each of them: the widget it had before the
    attributes were written is, for a date, date-time or e-mail field,
    an instance of the class that the table of widgets gives for the
    field type, and the field's own widget for any other field class;
    the class attribute is the class attribute of that widget (empty
    when it had none), a space and the lower-cased name of the field
    class; the id attribute is the field name, a hyphen and the form's
    uuid; attributes other than class, id and required are kept. *)
Theorem EditForm_init_styles_widgets (settings : Settings) (uuid4 : string)
    (obj : Model) (field_names : string)
    (data files : option (gmap string string)) (self : EditForm.t) :
  get_edit_form settings uuid4 obj field_names data files = Return self →
  ∃ base_fields,
    EditForm_base_fields obj field_names = Return base_fields
    ∧ keys (ModelForm.fields (EditForm.form self)) = keys base_fields
    ∧ ∀ f field,
        get base_fields f = Some field →
        ∃ field' before,
          get (ModelForm.fields (EditForm.form self)) f = Some field'
          ∧ field_class field' = field_class field
          ∧ match field_class field with
            | DateField =>
                ∃ cls, fields_WIDGETS !! fields_DATE = Some cls
                       ∧ before = instantiate cls
            | DateTimeField =>
                ∃ cls, fields_WIDGETS !! fields_DATE_TIME = Some cls
                       ∧ before = instantiate cls
            | EmailField =>
                ∃ cls, fields_WIDGETS !! fields_EMAIL = Some cls
                       ∧ before = instantiate cls
            | _ => before = widget field
            end
          ∧ widget_class (widget field') = widget_class before
          ∧ attrs (widget field') !! "class"
            = Some (default "" (attrs before !! "class") +:+ " "
                    +:+ lower (__name__ (field_class field)))
          ∧ attrs (widget field') !! "id"
            = Some (f +:+ "-" +:+ EditForm.uuid self)
          ∧ ∀ k, k ∉ ["class"; "id"; "required"] →
                 attrs (widget field') !! k = attrs before !! k.
Proof.
  intros Hself.
  destruct (get_edit_form_inv _ _ _ _ _ _ _ Hself)
    as (base_fields & Hbase & _ & Huuid & _).
  destruct (get_edit_form_fields _ _ _ _ _ _ _ _ Hbase Hself)
    as [Hkeys Hfields].
  exists base_fields. split_and!; [done|done|].
  intros f field Hget.
  destruct (Hfields f field Hget) as (before & Hov & Hf).
  eexists _, before. split; [exact Hf|]. cbn [EditForm.with_widget
    field_class widget]. rewrite Huuid. split_and!.
  - done.
  - by apply override_widget_inv.
  - done.
  - apply set_attrs_class.
  - apply set_attrs_id.
  - apply set_attrs_other.
Qed.

(** C8: in a form that [get_edit_form] returns, every field keeps the
    required flag of the class's field, and the required attribute of
    its widget is the empty string when the HTML5 setting is on and the
    field is required; otherwise it is whatever the widget had before
    the attributes were written, so the constructor has not set it. In
    particular nothing is set when the setting is off. *)
Theorem EditForm_init_required_attribute (settings : Settings)
    (uuid4 : string) (obj : Model) (field_names : string)
    (data files : option (gmap string string)) (self : EditForm.t) :
  get_edit_form settings uuid4 obj field_names data files = Return self →
  ∀ f field',
    get (ModelForm.fields (EditForm.form self)) f = Some field' →
    ∃ base_fields field before,
      EditForm_base_fields obj field_names = Return base_fields
      ∧ get base_fields f = Some field
      ∧ EditForm.override_widget field = Return before
      ∧ required field' = required field
      ∧ attrs (widget field') !! "required"
        = if FORMS_USE_HTML5 settings && required field' then Some ""
          else attrs before !! "required".
Proof.
  intros Hself f field' Hget'.
  destruct (get_edit_form_inv _ _ _ _ _ _ _ Hself)
    as (base_fields & Hbase & _).
  destruct (get_edit_form_fields _ _ _ _ _ _ _ _ Hbase Hself)
    as [Hkeys Hfields].
  assert (is_Some (get base_fields f)) as [field Hget].
  { apply get_is_Some. rewrite <- Hkeys. apply get_is_Some. by eauto. }
  destruct (Hfields f field Hget) as (before & Hov & Hf).
  rewrite Hget' in Hf. injection Hf as ->.
  exists base_fields, field, before. split_and!; [done|done|done|done|].
  cbn [EditForm.with_widget widget required]. apply set_attrs_required.
Qed.

(** C9: in a form that [get_edit_form] returns, each of the four
    hidden fields [app], [model], [id] and [fields] has had its turn of
    the loop as well: it is a character field with a hidden input
    whose id attribute is its name, a hyphen and the form's uuid, whose
    class attribute is a space and [charfield], and whose required
    attribute is set exactly when the HTML5 setting is on. *)
Theorem EditForm_init_styles_hidden_fields (settings : Settings)
    (uuid4 : string) (obj : Model) (field_names : string)
    (data files : option (gmap string string)) (self : EditForm.t) :
  get_edit_form settings uuid4 obj field_names data files = Return self →
  ∀ f, f ∈ ["app"; "model"; "id"; "fields"] →
    ∃ field',
      get (ModelForm.fields (EditForm.form self)) f = Some field'
      ∧ field_class field' = CharField
      ∧ widget_class (widget field') = HiddenInput
      ∧ attrs (widget field') !! "id"
        = Some (f +:+ "-" +:+ EditForm.uuid self)
      ∧ attrs (widget field') !! "class" = Some " charfield"
      ∧ attrs (widget field') !! "required"
        = if FORMS_USE_HTML5 settings then Some "" else None.
Proof.
  intros Hself f Hf.
  destruct (get_edit_form_inv _ _ _ _ _ _ _ Hself)
    as (base_fields & Hbase & _ & Huuid & _).
  destruct (get_edit_form_fields _ _ _ _ _ _ _ _ Hbase Hself)
    as [_ Hfields].
  assert (get base_fields f = Some (new_CharField None HiddenInput true))
    as Hget.
  { rewrite (metaclass_get_declared _ _ _ _ declared_fields_NoDup Hbase)
      by done.
    set_unfold in Hf. by destruct Hf as [->|[->|[->|[->|[]]]]]. }
  destruct (Hfields f _ Hget) as (before & Hov & Hf').
  injection Hov as <-.
  eexists. split; [exact Hf'|]. rewrite Huuid.
  cbn [EditForm.with_widget field_class widget].
  rewrite set_attrs_id, set_attrs_class, set_attrs_required.
  split_and!; try done. cbn. by rewrite andb_true_r.
Qed.

End edit_form_widgets.

(** ** The edit form of the example event

    The form for the fields [title] and [start_date] of the example
    event, with the HTML5 setting on and the uuid [u-1]. *)

Lemma Demo_names_are_fields (f : string) :
  f ∈ split "," "title,start_date" →
  f ∈ SortedDict.keys (formfields (__class__ Demo.event))
  ∧ f ∉ ignored (__class__ Demo.event).
Proof. cbn. set_solver. Defined.

Lemma Demo_widgets_complete (field_type : Z) :
  field_type ∈ [@fields_DATE Demo.framework; @fields_DATE_TIME Demo.framework;
                @fields_EMAIL Demo.framework] →
  is_Some (@fields_WIDGETS Demo.framework !! field_type).
Proof.
  cbn. intros Hin. set_unfold in Hin.
  destruct Hin as [->|[->|[->|[]]]]; by eexists.
Defined.

Lemma Demo_get_edit_form_returns :
  ∃ self,
    @get_edit_form Demo.framework (Demo.configured false true) "u-1"
      Demo.event "title,start_date" None None = Return self.
Proof.
  apply get_edit_form_returns;
    [by intros f [??]%Demo_names_are_fields; left
    |apply Demo_widgets_complete].
Defined.

Lemma get_edit_form_restricts_fields_witness :
  ∃ self,
    @get_edit_form Demo.framework (Demo.configured false true) "u-1"
      Demo.event "title,start_date" None None = Return self
    ∧ ModelForm.Meta_fields (EditForm.form self)
      = Some ["title"; "start_date"]
    ∧ ModelForm.initial (EditForm.form self) !! "app"
      = Some (PStr "calendar")
    ∧ ModelForm.initial (EditForm.form self) !! "model"
      = Some (PStr "event")
    ∧ ModelForm.initial (EditForm.form self) !! "id" = Some (PInt 7)
    ∧ ModelForm.initial (EditForm.form self) !! "fields"
      = Some (PStr "title,start_date").
Proof.
  destruct (@get_edit_form_restricts_fields Demo.framework
              (Demo.configured false true) "u-1" Demo.event
              "title,start_date" None None
              Demo_names_are_fields Demo_widgets_complete)
    as (self & Hself & _ & _ & Hmeta & _ & _ & Happ & Hmodel & Hid & Hfields).
  exists self. split_and!; [exact Hself|exact Hmeta|exact Happ|exact Hmodel
                           |exact Hid|exact Hfields].
Defined.

(** The start date gets the date widget of the table, the class of its
    field class and an id that ends in the uuid. *)
Lemma EditForm_init_styles_widgets_witness :
  ∃ self field',
    @get_edit_form Demo.framework (Demo.configured false true) "u-1"
      Demo.event "title,start_date" None None = Return self
    ∧ SortedDict.get (ModelForm.fields (EditForm.form self)) "start_date"
      = Some field'
    ∧ widget_class (widget field') = Demo.SelectDateWidget
    ∧ attrs (widget field') !! "class" = Some " datefield"
    ∧ attrs (widget field') !! "id" = Some "start_date-u-1".
Proof.
  destruct Demo_get_edit_form_returns as [self Hself].
  destruct (@EditForm_init_styles_widgets Demo.framework _ _ _ _ _ _ self
              Hself) as (base_fields & Hbase & _ & Hfields).
  vm_compute in Hbase. injection Hbase as <-.
  edestruct (Hfields "start_date")
    as (field' & before & Hget & _ & Hbefore & Hwidget & Hclass & Hid & _);
    [vm_compute; reflexivity|].
  cbn in Hbefore. destruct Hbefore as (cls & Hcls & ->).
  vm_compute in Hcls. injection Hcls as <-.
  exists self, field'. split_and!; [exact Hself|exact Hget|exact Hwidget| |].
  - rewrite Hclass. reflexivity.
  - rewrite Hid.
    destruct (@get_edit_form_inv Demo.framework _ _ _ _ _ _ _ Hself)
      as (_ & _ & _ & -> & _).
    reflexivity.
Defined.

(** The title is required and the setting is on; the start date is
    optional. *)
Lemma EditForm_init_required_attribute_witness :
  ∃ self title start_date,
    @get_edit_form Demo.framework (Demo.configured false true) "u-1"
      Demo.event "title,start_date" None None = Return self
    ∧ SortedDict.get (ModelForm.fields (EditForm.form self)) "title"
      = Some title
    ∧ attrs (widget title) !! "required" = Some ""
    ∧ SortedDict.get (ModelForm.fields (EditForm.form self)) "start_date"
      = Some start_date
    ∧ attrs (widget start_date) !! "required" = None.
Proof.
  destruct Demo_get_edit_form_returns as [self Hself].
  pose proof (@EditForm_init_required_attribute Demo.framework _ _ _ _ _ _
                self Hself) as Hrequired.
  edestruct (@get_edit_form_fields Demo.framework
               (Demo.configured false true) "u-1" Demo.event
               "title,start_date" None None self) as [_ Hfields];
    [vm_compute; reflexivity|exact Hself|].
  edestruct (Hfields "title") as (before1 & _ & Htitle);
    [vm_compute; reflexivity|].
  edestruct (Hfields "start_date") as (before2 & _ & Hstart);
    [vm_compute; reflexivity|].
  destruct (Hrequired "title" _ Htitle)
    as (base1 & field1 & b1 & Hbase1 & Hget1 & Hov1 & Hreq1 & Hattr1).
  destruct (Hrequired "start_date" _ Hstart)
    as (base2 & field2 & b2 & Hbase2 & Hget2 & Hov2 & Hreq2 & Hattr2).
  vm_compute in Hbase1. injection Hbase1 as <-.
  vm_compute in Hbase2. injection Hbase2 as <-.
  vm_compute in Hget1. injection Hget1 as <-.
  vm_compute in Hget2. injection Hget2 as <-.
  vm_compute in Hov2. injection Hov2 as <-.
  eexists self, _, _.
  split_and!; [exact Hself|exact Htitle|exact Hattr1|exact Hstart
              |exact Hattr2].
Defined.

Lemma EditForm_init_styles_hidden_fields_witness :
  ∃ self field',
    @get_edit_form Demo.framework (Demo.configured false true) "u-1"
      Demo.event "title,start_date" None None = Return self
    ∧ SortedDict.get (ModelForm.fields (EditForm.form self)) "fields"
      = Some field'
    ∧ attrs (widget field') !! "id" = Some "fields-u-1"
    ∧ attrs (widget field') !! "class" = Some " charfield"
    ∧ attrs (widget field') !! "required" = Some "".
Proof.
  destruct Demo_get_edit_form_returns as [self Hself].
  destruct (@EditForm_init_styles_hidden_fields Demo.framework _ _ _ _ _ _
              self Hself "fields")
    as (field' & Hget & _ & _ & Hid & Hclass & Hrequired); [set_solver|].
  destruct (@get_edit_form_inv Demo.framework _ _ _ _ _ _ _ Hself)
    as (_ & _ & _ & Huuid & _).
  rewrite Huuid in Hid.
  exists self, field'.
  split_and!; [exact Hself|exact Hget|exact Hid|exact Hclass|exact Hrequired].
Defined.

(** A name that is no field of the model makes the class statement
    fail, and so does a name with a space before it. *)
Example get_edit_form_unknown_field :
  @get_edit_form Demo.framework (Demo.configured false false) "u-1"
    Demo.event "title, start_date" None None
  = Raise (FieldError [" start_date"]).
Proof. by vm_compute. Qed.

(** A field type that the table of widget classes lacks makes the
    constructor fail. *)
Example get_edit_form_missing_widget :
  @get_edit_form Demo.framework_without_email_widget
    (Demo.configured false false) "u-1" Demo.contact "email" None None
  = Raise (KeyError (PInt 3)).
Proof. by vm_compute. Qed.

(** The whole form, computed; attributes come in the order of the map's
    enumeration. *)
Example get_edit_form_event :
  (fun self =>
     (fun kv => (kv.1, (wc_name (widget_class (widget kv.2)),
                        map_to_list (attrs (widget kv.2)))))
       <$> ModelForm.fields (EditForm.form self))
    <$> (match @get_edit_form Demo.framework (Demo.configured false false)
                 "u-1" Demo.event "title,start_date" None None with
         | Return self => Some self
         | Raise _ => None
         end)
  = Some
      [("title", ("TextInput",
                  [("class", " charfield"); ("maxlength", "100");
                   ("id", "title-u-1")]));
       ("start_date", ("SelectDateWidget",
                       [("class", " datefield"); ("id", "start_date-u-1")]));
       ("app", ("HiddenInput",
                [("class", " charfield"); ("id", "app-u-1")]));
       ("model", ("HiddenInput",
                  [("class", " charfield"); ("id", "model-u-1")]));
       ("id", ("HiddenInput",
               [("class", " charfield"); ("id", "id-u-1")]));
       ("fields", ("HiddenInput",
                   [("class", " charfield"); ("id", "fields-u-1")]))].
Proof. vm_compute. reflexivity. Qed.

(** The example slide model is orderable, the example event model is
    not. *)
Lemma DynamicInlineAdminForm_init_order_field_witness :
  (∃ order,
     SortedDict.get
       (ModelForm.fields
          (DynamicInlineAdminForm.__init__ Demo.Slide None
             (formfields Demo.Slide) None None None None)) "_order"
     = Some order
     ∧ widget_class (widget order) = OrderWidget.cls
     ∧ required order = false)
  ∧ DynamicInlineAdminForm.__init__ Demo.Event None
      (formfields Demo.Event) None None None None
    = ModelForm.__init__ Demo.Event None
        (formfields Demo.Event) None None None None.
Proof.
  split.
  - destruct (DynamicInlineAdminForm_init_order_field Demo.Slide None
                (formfields Demo.Slide) None None None None)
      as ((order & Hget & _ & Hwidget & Hrequired & _) & _).
    exists order. split_and!; [exact Hget|exact Hwidget|exact Hrequired].
  - exact (DynamicInlineAdminForm_init_order_field Demo.Event None
             (formfields Demo.Event) None None None None).
Defined.

(** * Further properties of the signup and login forms *)

Section signup_login_effects.
Context `{!Framework}.

(** X1: validation of the e-mail field of the signup form changes
    neither the form, nor the user table, nor the settings, whatever
    its outcome; the only framework call it makes is one lookup of a
    user. Without an e-mail in the cleaned data it raises [KeyError]
    before any call. *)
Theorem SignupForm_clean_email_changes_nothing (self : UserForm.t)
    (w : World) :
  let result := SignupForm.clean_email (self, w) in
  result.2.1 = self
  ∧ auth_user result.2.2 = auth_user w
  ∧ settings result.2.2 = settings w
  ∧ (calls result.2.2 = calls w
     ∨ ∃ name, calls result.2.2 = (calls w ++ [Call_objects_get name])%list)
  ∧ (UserForm.cleaned_data self !! "email" = None →
     result.1 = Raise (KeyError (PStr "email"))
     ∧ calls result.2.2 = calls w).
Proof.
  intros result. subst result.
  destruct (UserForm.cleaned_data self !! "email") as [email|] eqn:Hemail.
  - rewrite (SignupForm_clean_email_run self w email) by done.
    cbn [fst snd auth_user settings calls]. split_and!; by eauto.
  - unfold SignupForm.clean_email. run_py. rewrite Hemail. run_py.
    split_and!; by eauto.
Qed.

(** X2: whole-form validation of the login form changes neither the
    user table nor the settings, keeps the form's initial, submitted
    and cleaned data, and calls the framework at most once, to
    authenticate: it never logs the user in. *)
Theorem LoginForm_clean_changes_nothing (self : UserForm.t) (w : World) :
  let result := LoginForm.clean (self, w) in
  auth_user result.2.2 = auth_user w
  ∧ settings result.2.2 = settings w
  ∧ UserForm.initial result.2.1 = UserForm.initial self
  ∧ UserForm.data result.2.1 = UserForm.data self
  ∧ UserForm.cleaned_data result.2.1 = UserForm.cleaned_data self
  ∧ (calls result.2.2 = calls w
     ∨ ∃ name raw_password,
         calls result.2.2
         = (calls w ++ [Call_authenticate name raw_password])%list).
Proof.
  intros result. subst result.
  destruct (UserForm.cleaned_data self !! "email") as [email|] eqn:Hemail;
    [destruct (UserForm.cleaned_data self !! "password")
       as [raw_password|] eqn:Hpassword|].
  - rewrite (LoginForm_clean_run self w email raw_password) by done.
    cbn [fst snd auth_user settings calls UserForm.initial UserForm.data
         UserForm.cleaned_data].
    split_and!; by eauto.
  - rewrite LoginForm_clean_skips by (by right). split_and!; by eauto.
  - rewrite LoginForm_clean_skips by (by left). split_and!; by eauto.
Qed.

(** X3: when the e-mail or the password failed its own validation and
    is missing from the cleaned data, whole-form validation of the
    login form passes the cleaned data through without calling
    authenticate, so the form has no authenticated user afterwards
    unless it had one before. *)
Theorem LoginForm_clean_skips_authentication (self : UserForm.t)
    (w : World) :
  UserForm.cleaned_data self !! "email" = None
  ∨ UserForm.cleaned_data self !! "password" = None →
  (LoginForm.clean (self, w)).1 = Return (UserForm.cleaned_data self)
  ∧ (LoginForm.clean (self, w)).2 = (self, w).
Proof. intros Hmissing. by rewrite LoginForm_clean_skips. Qed.

(** X4: [save] on a form whose cleaned data lacks the e-mail, or has
    the e-mail but lacks the password, raises [KeyError] for the key
    that is missing and has done nothing by then: no user is created
    and no framework call is made. *)
Theorem SignupForm_save_missing_key (self : UserForm.t) (w : World) :
  (UserForm.cleaned_data self !! "email" = None →
   SignupForm.save (self, w) = (Raise (KeyError (PStr "email")), (self, w)))
  ∧ (is_Some (UserForm.cleaned_data self !! "email") →
     UserForm.cleaned_data self !! "password" = None →
     SignupForm.save (self, w)
     = (Raise (KeyError (PStr "password")), (self, w))).
Proof.
  split.
  - intros Hemail. unfold SignupForm.save. run_py. by rewrite Hemail.
  - intros [email Hemail] Hpassword. unfold SignupForm.save. run_py.
    rewrite Hemail. run_py. by rewrite Hpassword.
Qed.

(** X5: [save] for an e-mail that a user already has as username
    raises [IntegrityError] from the creation of the user: the user
    table and the form are as before, the settings are not refreshed,
    and neither a save of a user, nor authenticate, nor login is
    called. *)
Theorem SignupForm_save_taken_username (self : UserForm.t) (w : World)
    (email raw_password : string) (existing : User) :
  UserForm.cleaned_data self !! "email" = Some email →
  UserForm.cleaned_data self !! "password" = Some raw_password →
  auth_user w !! email = Some existing →
  SignupForm.save (self, w)
  = (Raise IntegrityError,
     (self,
      {| auth_user := auth_user w; settings := settings w;
         calls := calls w ++ [Call_create_user email email raw_password] |})).
Proof.
  intros Hemail Hpassword Htaken. unfold SignupForm.save. run_py.
  rewrite Hemail. run_py. rewrite Hpassword. run_py. by rewrite Htaken.
Qed.

(** X6: once [save] has created the user, validation of the same
    e-mail on any signup form raises the duplicate-email error, with
    and without required verification. *)
Theorem SignupForm_save_then_clean_email (self again : UserForm.t)
    (w : World) (email raw_password : string) :
  UserForm.cleaned_data self !! "email" = Some email →
  UserForm.cleaned_data self !! "password" = Some raw_password →
  auth_user w !! email = None →
  UserForm.cleaned_data again !! "email" = Some email →
  (SignupForm.save (self, w)).1
  = Return {| username := email; Django.email := normalize_email email;
              password := make_password raw_password;
              is_active :=
                negb (ACCOUNTS_VERIFICATION_REQUIRED
                        (editable_settings (settings w))) |}
  ∧ (SignupForm.clean_email (again, (SignupForm.save (self, w)).2.2)).1
    = Raise (ValidationError "This email is already registered").
Proof.
  intros Hemail Hpassword Hfree Hagain.
  rewrite (SignupForm_save_run self w email raw_password) by done.
  destruct (ACCOUNTS_VERIFICATION_REQUIRED _); cbn [fst snd negb];
    (split; [done|]);
    rewrite (SignupForm_clean_email_run again _ email) by done;
    cbn [fst auth_user]; by rewrite lookup_insert_eq.
Qed.

End signup_login_effects.

Section signup_then_login.
Context `{!Framework}.

(** The user table after [save] has created a user: the row under the
    e-mail is the new user, inactive exactly when verification is
    required. *)
Lemma SignupForm_save_row (self : UserForm.t) (w : World)
    (email raw_password : string) :
  UserForm.cleaned_data self !! "email" = Some email →
  UserForm.cleaned_data self !! "password" = Some raw_password →
  auth_user w !! email = None →
  ∃ user,
    auth_user (SignupForm.save (self, w)).2.2 !! email = Some user
    ∧ is_active user
      = negb (ACCOUNTS_VERIFICATION_REQUIRED
                (editable_settings (settings w))).
Proof.
  intros Hemail Hpassword Hfree.
  rewrite (SignupForm_save_run self w email raw_password) by done.
  destruct (ACCOUNTS_VERIFICATION_REQUIRED _); cbn [fst snd auth_user];
    eexists; (split; [apply lookup_insert_eq|done]).
Qed.

(** X7: with authentication backends that only return rows of the user
    table, a user who signed up while verification is required cannot
    pass login validation: for any password, whole-form validation of
    the login form with that e-mail raises the invalid-credentials
    error or the inactive-account error, the latter whenever the
    backends find the user. *)
Theorem signup_with_verification_blocks_login (self attempt : UserForm.t)
    (w : World) (email raw_password guess : string) :
  (∀ users name p user,
     backend_authenticate users name p = Some user →
     users !! name = Some user) →
  UserForm.cleaned_data self !! "email" = Some email →
  UserForm.cleaned_data self !! "password" = Some raw_password →
  auth_user w !! email = None →
  ACCOUNTS_VERIFICATION_REQUIRED (editable_settings (settings w)) = true →
  UserForm.cleaned_data attempt !! "email" = Some email →
  UserForm.cleaned_data attempt !! "password" = Some guess →
  let w' := (SignupForm.save (self, w)).2.2 in
  match backend_authenticate (auth_user w') email guess with
  | Some _ =>
      (LoginForm.clean (attempt, w')).1
      = Raise (ValidationError "Your account is inactive")
  | None =>
      (LoginForm.clean (attempt, w')).1
      = Raise (ValidationError "Invalid email/password")
  end.
Proof.
  intros Hsound Hemail Hpassword Hfree Hflag Hemail' Hguess w'.
  destruct (SignupForm_save_row self w email raw_password)
    as (user & Hrow & Hactive); [done..|].
  rewrite Hflag in Hactive. fold w' in Hrow.
  rewrite (LoginForm_clean_run attempt w' email guess) by done.
  cbn [fst].
  destruct (backend_authenticate (auth_user w') email guess)
    as [found|] eqn:Hfound; [|done].
  apply Hsound in Hfound. rewrite Hrow in Hfound.
  injection Hfound as <-. by rewrite Hactive.
Qed.

(** X8: with such backends, after a signup without required
    verification, login validation with that e-mail never raises the
    inactive-account error: it passes whenever the backends find the
    user, and raises the invalid-credentials error otherwise. *)
Theorem signup_without_verification_allows_login
    (self attempt : UserForm.t) (w : World)
    (email raw_password guess : string) :
  (∀ users name p user,
     backend_authenticate users name p = Some user →
     users !! name = Some user) →
  UserForm.cleaned_data self !! "email" = Some email →
  UserForm.cleaned_data self !! "password" = Some raw_password →
  auth_user w !! email = None →
  ACCOUNTS_VERIFICATION_REQUIRED (editable_settings (settings w)) = false →
  UserForm.cleaned_data attempt !! "email" = Some email →
  UserForm.cleaned_data attempt !! "password" = Some guess →
  let w' := (SignupForm.save (self, w)).2.2 in
  match backend_authenticate (auth_user w') email guess with
  | Some _ =>
      (LoginForm.clean (attempt, w')).1
      = Return (UserForm.cleaned_data attempt)
  | None =>
      (LoginForm.clean (attempt, w')).1
      = Raise (ValidationError "Invalid email/password")
  end.
Proof.
  intros Hsound Hemail Hpassword Hfree Hflag Hemail' Hguess w'.
  destruct (SignupForm_save_row self w email raw_password)
    as (user & Hrow & Hactive); [done..|].
  rewrite Hflag in Hactive. fold w' in Hrow.
  rewrite (LoginForm_clean_run attempt w' email guess) by done.
  cbn [fst].
  destruct (backend_authenticate (auth_user w') email guess)
    as [found|] eqn:Hfound; [|done].
  apply Hsound in Hfound. rewrite Hrow in Hfound.
  injection Hfound as <-. by rewrite Hactive.
Qed.

(** X9: a form as its constructor leaves it has no [_user]: calling
    [login] on it before [authenticate] raises [AttributeError] and
    does not reach the framework's login. *)
Theorem UserForm_login_before_authenticate (request request' : HttpRequest)
    (args : option (gmap string string)) (self : UserForm.t) (w : World) :
  UserForm.__init__ request args = Return self →
  UserForm.login request' (self, w)
  = (Raise (AttributeError "_user"), (self, w)).
Proof.
  unfold UserForm.__init__.
  destruct (UserForm.scan_cookies _ _) as [initial|]; [|done].
  intros [= <-]. reflexivity.
Qed.


Lemma scan_cookies_sound (values : list string)
    (initial initial' : gmap string string) :
  UserForm.scan_cookies values initial = Return initial' →
  initial' = initial
  ∨ ∃ value, value ∈ values ∧ email_is_valid value = true
             ∧ initial' = <["email" := value]> initial.
Proof.
  induction values as [|value values IH]; simpl.
  - intros [= <-]. by left.
  - unfold validators.validate_email.
    destruct (email_is_valid value) eqn:Hvalue.
    + intros [= <-]. right. exists value. split_and!; [by left|done..].
    + intros [->|(v & Hv & Hvalid & ->)]%IH; [by left|].
      right. exists v. split_and!; [by right|done..].
Qed.

(** X11: the constructor pre-fills nothing but the e-mail field, and
    only with a cookie value that [validate_email] accepts; it hands
    its remaining arguments on and leaves the form without cleaned data
    and without an authenticated user. *)
Theorem UserForm_init_initial_sound (request : HttpRequest)
    (args : option (gmap string string)) (self : UserForm.t) :
  UserForm.__init__ request args = Return self →
  (∀ k v, UserForm.initial self !! k = Some v →
          k = "email" ∧ v ∈ (COOKIES request).*2
          ∧ email_is_valid v = true)
  ∧ UserForm.data self = args
  ∧ UserForm.cleaned_data self = ∅
  ∧ UserForm._user self = None.
Proof.
  unfold UserForm.__init__.
  destruct (UserForm.scan_cookies _ _) as [initial|] eqn:Hscan; [|done].
  intros [= <-]. cbn. split_and!; [|done..].
  intros k v Hk.
  apply scan_cookies_sound in Hscan as [->|(value & Hin & Hvalid & ->)].
  - by rewrite lookup_empty in Hk.
  - apply lookup_insert_Some in Hk as [[<- <-]|[_ Hk]]; [done|].
    by rewrite lookup_empty in Hk.
Qed.

End signup_then_login.

(** The example backend only returns rows of the user table. *)
Lemma check_password_sound (users : gmap string User)
    (name p : string) (user : User) :
  Demo.check_password users name p = Some user → users !! name = Some user.
Proof.
  unfold Demo.check_password.
  destruct (users !! name) as [row|]; [|done].
  case_decide; [|done]. by intros [= <-].
Qed.

(** * Further properties of the in-line edit form *)

Section edit_form_failures.
Context `{!Framework}.
Import SortedDict SortedDictFacts.

(** The names the class statement reports are the names that are
    neither a field of the model, nor ignored, nor declared. *)
Lemma metaclass_raises (model : ModelClass) (names : list string)
    (declared : t Field) (e : Exception) :
  ModelForm.metaclass model (Some names) declared = Raise e →
  ∃ missing,
    e = FieldError missing
    ∧ missing ≠ []
    ∧ ∀ n, n ∈ missing
           ↔ (n ∈ names ∧ (n ∉ keys (formfields model))
              ∧ (n ∉ ignored model) ∧ (n ∉ keys declared)).
Proof.
  unfold ModelForm.metaclass.
  destruct (filter _ _) as [|m rest] eqn:Hmissing; [done|].
  intros [= <-]. exists (m :: rest). split_and!; [done..|].
  intros n. rewrite <- Hmissing.
  rewrite list_elem_of_filter, list_elem_of_fmap.
  split.
  - intros (Hdeclared & [k v] & -> & Hnone).
    apply list_elem_of_filter in Hnone as [Hv Hin]. simpl in *. subst v.
    apply (get_NoDup (ModelForm.fields_for_model model (Some names))) in Hin;
      [|apply NoDup_keys_of_items].
    rewrite get_fields_for_model in Hin.
    case_decide as Hk; [destruct Hk as [Hk Hignored]|done].
    injection Hin as Hget. apply get_None in Hget. done.
  - intros (Hname & Hfield & Hignored & Hdeclared). split; [done|].
    exists (n, None). split; [done|].
    apply list_elem_of_filter. split; [done|].
    apply get_Some_elem_of. rewrite get_fields_for_model.
    rewrite decide_True by done. f_equal. by apply get_None.
Qed.

Lemma widget_overrides_types (field_class : FieldClass) (field_type : Z) :
  EditForm.widget_overrides field_class = Some field_type →
  field_type ∈ [fields_DATE; fields_DATE_TIME; fields_EMAIL].
Proof.
  unfold EditForm.widget_overrides.
  destruct field_class; intros [= <-]; set_solver.
Qed.

(** The only way the choice of a widget fails. *)
Lemma override_widget_raises (field : Field) (e : Exception) :
  EditForm.override_widget field = Raise e →
  ∃ field_type,
    e = KeyError (PInt field_type)
    ∧ EditForm.widget_overrides (field_class field) = Some field_type
    ∧ fields_WIDGETS !! field_type = None.
Proof.
  unfold EditForm.override_widget.
  destruct (EditForm.widget_overrides _) as [field_type|]; [|done].
  destruct (fields_WIDGETS !! field_type) eqn:Htable; [done|].
  intros [= <-]. by eauto.
Qed.

Lemma override_widget_returns_iff (field : Field) :
  (∃ before, EditForm.override_widget field = Return before)
  ↔ ∀ field_type,
      EditForm.widget_overrides (field_class field) = Some field_type →
      is_Some (fields_WIDGETS !! field_type).
Proof.
  unfold EditForm.override_widget.
  destruct (EditForm.widget_overrides _) as [field_type|].
  - destruct (fields_WIDGETS !! field_type) as [cls|] eqn:Htable.
    + split; [|by eauto]. intros _ ? [= <-]. by eauto.
    + split; [by intros [? [=]]|].
      intros Htypes. destruct (Htypes field_type eq_refl) as [? Hsome].
      rewrite Htable in Hsome. done.
  - split; [done|by eauto].
Qed.

(** The loop over keys that are all in the dictionary either returns
    or stops at a field type the table of widgets lacks. *)
Lemma for_in_init_field_outcome (settings : Settings) (uuid : string)
    (ks : list string) (fields : t Field) :
  (∀ f, f ∈ ks → is_Some (get fields f)) →
  (∃ fields',
     EditForm.for_in (EditForm.init_field settings uuid) ks fields
     = Return fields')
  ∨ (∃ field_type,
       EditForm.for_in (EditForm.init_field settings uuid) ks fields
       = Raise (KeyError (PInt field_type))
       ∧ field_type ∈ [fields_DATE; fields_DATE_TIME; fields_EMAIL]
       ∧ fields_WIDGETS !! field_type = None).
Proof.
  revert fields. induction ks as [|k ks IH]; intros fields Hall.
  - left. by eexists.
  - destruct (Hall k) as [field Hget]; [by left|].
    cbn [EditForm.for_in].
    destruct (EditForm.override_widget field) as [before|e] eqn:Hov.
    + rewrite (init_field_returns _ _ _ _ _ _ Hget Hov).
      cbn [mbind Outcome_bind]. apply IH.
      intros f Hf. rewrite get_set. case_decide; [done|].
      apply Hall. by right.
    + right.
      apply override_widget_raises in Hov as Hraise.
      destruct Hraise as (field_type & -> & Htype & Htable).
      exists field_type. split_and!; [|by eapply widget_overrides_types|done].
      unfold EditForm.init_field. rewrite Hget. cbn [mbind Outcome_bind].
      by rewrite Hov.
Qed.

Lemma declared_fields_get (f : string) :
  f ∈ keys EditForm.declared_fields →
  get EditForm.declared_fields f = Some (new_CharField None HiddenInput true).
Proof.
  intros Hf. change (f ∈ ["app"; "model"; "id"; "fields"]) in Hf.
  set_unfold in Hf. by destruct Hf as [->|[->|[->|[->|[]]]]].
Qed.

(** [get_edit_form] once the class statement has succeeded. *)
Lemma get_edit_form_loop (settings : Settings) (uuid4 : string)
    (obj : Model) (field_names : string)
    (data files : option (gmap string string)) (base_fields : t Field) :
  EditForm_base_fields obj field_names = Return base_fields →
  match EditForm.for_in (EditForm.init_field settings uuid4)
          (keys base_fields) base_fields with
  | Return _ =>
      ∃ self, get_edit_form settings uuid4 obj field_names data files
              = Return self
  | Raise e =>
      get_edit_form settings uuid4 obj field_names data files = Raise e
  end.
Proof.
  intros Hbase. unfold get_edit_form. rewrite Hbase.
  cbn [mbind Outcome_bind]. unfold EditForm.__init__.
  cbn [ModelForm.__init__ ModelForm.fields].
  destruct (EditForm.for_in _ _ _); [by eexists|done].
Qed.

(** X12: when the string names something that is neither an editable
    field of the model nor one of the four hidden fields (a misspelt
    name, a name with a space around it, the empty name of an empty
    string), [get_edit_form] raises [FieldError], and the names it
    reports are exactly the names of that kind. *)
Theorem get_edit_form_unknown_field_raises (settings : Settings)
    (uuid4 : string) (obj : Model) (field_names : string)
    (data files : option (gmap string string)) (f : string) :
  f ∈ split "," field_names →
  f ∉ keys (formfields (__class__ obj)) →
  f ∉ ignored (__class__ obj) →
  f ∉ ["app"; "model"; "id"; "fields"] →
  ∃ missing,
    get_edit_form settings uuid4 obj field_names data files
    = Raise (FieldError missing)
    ∧ f ∈ missing
    ∧ ∀ n, n ∈ missing
           ↔ (n ∈ split "," field_names
              ∧ (n ∉ keys (formfields (__class__ obj)))
              ∧ (n ∉ ignored (__class__ obj))
              ∧ (n ∉ ["app"; "model"; "id"; "fields"])).
Proof.
  intros Hf Hfield Hignored Hhidden.
  destruct (EditForm_base_fields obj field_names) as [base_fields|e]
    eqn:Hbase.
  - exfalso. apply Hfield, get_is_Some.
    by apply (metaclass_no_missing _ _ _ _ Hbase).
  - destruct (metaclass_raises _ _ _ _ Hbase) as (missing & -> & _ & Hmissing).
    exists missing. split_and!.
    + unfold get_edit_form. by rewrite Hbase.
    + by apply Hmissing.
    + exact Hmissing.
Qed.

(** X13: [get_edit_form] returns a form exactly when every name in the
    string is an editable field of the model or one of the four hidden
    fields, and the table of widgets has an entry for the type of every
    named date, date-time or e-mail field that no hidden field
    replaces. *)
Theorem get_edit_form_returns_iff (settings : Settings) (uuid4 : string)
    (obj : Model) (field_names : string)
    (data files : option (gmap string string)) :
  (∃ self, get_edit_form settings uuid4 obj field_names data files
           = Return self)
  ↔ (∀ f, f ∈ split "," field_names →
          f ∈ keys (formfields (__class__ obj))
          ∨ f ∈ ignored (__class__ obj)
          ∨ f ∈ ["app"; "model"; "id"; "fields"])
    ∧ (∀ f field field_type,
         f ∈ split "," field_names →
         f ∉ ignored (__class__ obj) →
         f ∉ ["app"; "model"; "id"; "fields"] →
         get (formfields (__class__ obj)) f = Some field →
         EditForm.widget_overrides (field_class field) = Some field_type →
         is_Some (fields_WIDGETS !! field_type)).
Proof.
  split.
  - intros [self Hself].
    destruct (get_edit_form_inv _ _ _ _ _ _ _ Hself)
      as (base_fields & Hbase & _).
    destruct (get_edit_form_fields _ _ _ _ _ _ _ _ Hbase Hself)
      as [_ Hfields].
    split.
    + intros f Hf.
      destruct (decide (f ∈ ignored (__class__ obj))); [by eauto|].
      destruct (decide (f ∈ ["app"; "model"; "id"; "fields"]));
        [by eauto|].
      left. apply get_is_Some.
      by apply (metaclass_no_missing _ _ _ _ Hbase).
    + intros f field field_type Hf Hignored Hhidden Hget Htype.
      destruct (Hfields f field) as (before & Hov & _).
      { by rewrite (metaclass_get_model _ _ _ _ declared_fields_NoDup
                      Hbase). }
      apply (proj1 (override_widget_returns_iff field)); by eauto.
  - intros [Hnamed Hwidgets].
    destruct (metaclass_returns_when_named (__class__ obj)
                (split "," field_names) EditForm.declared_fields)
      as [base_fields Hbase]; [done|].
    pose proof (get_edit_form_loop settings uuid4 obj field_names data
                  files base_fields Hbase) as Hloop.
    destruct (for_in_init_field_returns settings uuid4 (keys base_fields)
                base_fields) as [fields Hfields].
    { eapply metaclass_NoDup, Hbase. }
    { intros f Hf. pose proof Hf as [field Hget]%get_is_Some.
      exists field.
      destruct (decide (f ∈ keys EditForm.declared_fields)) as [Hd|Hd].
      - pose proof Hget as Hdeclared.
        rewrite (metaclass_get_declared _ _ _ _ declared_fields_NoDup
                   Hbase), declared_fields_get in Hdeclared by done.
        injection Hdeclared as <-. eexists. split; [done|reflexivity].
      - apply (metaclass_keys _ _ _ _ declared_fields_NoDup Hbase)
          in Hf as [[Hf Hignored]|?]; [|done].
        pose proof Hget as Hmodel.
        rewrite (metaclass_get_model _ _ _ _ declared_fields_NoDup Hbase)
          in Hmodel by done.
        destruct (proj2 (override_widget_returns_iff field)) as [before ?];
          [|by eauto].
        intros field_type Htype. by eapply Hwidgets. }
    by rewrite Hfields in Hloop.
Qed.

(** X14: [get_edit_form] fails in two ways only: with [FieldError],
    naming at least one name of the string that is no field, or with
    [KeyError] for the type of a date, date-time or e-mail field that
    the table of widgets lacks. *)
Theorem get_edit_form_failures (settings : Settings) (uuid4 : string)
    (obj : Model) (field_names : string)
    (data files : option (gmap string string)) (e : Exception) :
  get_edit_form settings uuid4 obj field_names data files = Raise e →
  (∃ missing n,
     e = FieldError missing ∧ n ∈ missing
     ∧ ∀ n, n ∈ missing →
            n ∈ split "," field_names
            ∧ (n ∉ keys (formfields (__class__ obj)))
            ∧ (n ∉ ["app"; "model"; "id"; "fields"]))
  ∨ (∃ field_type,
       e = KeyError (PInt field_type)
       ∧ field_type ∈ [fields_DATE; fields_DATE_TIME; fields_EMAIL]
       ∧ fields_WIDGETS !! field_type = None).
Proof.
  intros Hraise.
  destruct (EditForm_base_fields obj field_names) as [base_fields|e']
    eqn:Hbase.
  - right.
    pose proof (get_edit_form_loop settings uuid4 obj field_names data
                  files base_fields Hbase) as Hloop.
    destruct (for_in_init_field_outcome settings uuid4 (keys base_fields)
                base_fields) as [[fields Hfields]|(field_type & Hfields & ?)].
    + intros f Hf. by apply get_is_Some.
    + rewrite Hfields in Hloop. destruct Hloop as [self Hself].
      rewrite Hself in Hraise. done.
    + rewrite Hfields, Hraise in Hloop. injection Hloop as ->. by eauto.
  - left. unfold get_edit_form in Hraise. rewrite Hbase in Hraise.
    injection Hraise as <-.
    destruct (metaclass_raises _ _ _ _ Hbase)
      as (missing & -> & Hne & Hmissing).
    destruct missing as [|n missing]; [done|].
    exists (n :: missing), n. split_and!; [done|by left|].
    intros n' (? & ? & _ & ?)%Hmissing. done.
Qed.

End edit_form_failures.

Section strings_with_suffix.



End strings_with_suffix.

Section edit_form_ids_and_data.
Context `{!Framework}.
Import SortedDict SortedDictFacts.



(** X16: besides the four bookkeeping values, the initial data of a
    form that [get_edit_form] returned holds the object's values of
    the editable fields named in the string, and nothing of the
    object's other fields. *)
Theorem get_edit_form_initial_object_values (settings : Settings)
    (uuid4 : string) (obj : Model) (field_names : string)
    (data files : option (gmap string string)) (self : EditForm.t)
    (f : string) :
  get_edit_form settings uuid4 obj field_names data files = Return self →
  f ∉ ["app"; "model"; "id"; "fields"] →
  ModelForm.initial (EditForm.form self) !! f
  = if decide (f ∈ split "," field_names
               ∧ f ∈ (keys (formfields (__class__ obj))
                        ++ ignored (__class__ obj))%list)
    then field_values obj !! f
    else None.
Proof.
  intros Hself Hhidden.
  destruct (get_edit_form_inv _ _ _ _ _ _ _ Hself)
    as (_ & _ & _ & _ & _ & _ & _ & _ & _ & ->).
  rewrite lookup_union_r.
  2:{ set_unfold in Hhidden.
      rewrite !lookup_insert_ne by (intros <-; apply Hhidden; by eauto 6).
      apply lookup_singleton_ne. intros <-. apply Hhidden. by eauto 6. }
  unfold ModelForm.model_to_dict.
  destruct (split_cons "," field_names) as (piece & pieces & ->).
  destruct (field_values obj !! f) as [v|] eqn:Hv.
  - case_decide as Hf.
    + apply map_lookup_filter_Some_2; [done|]. simpl. by destruct Hf.
    + apply map_lookup_filter_None_2. right.
      intros v' _ [??]. by apply Hf.
  - rewrite (proj2 (map_lookup_filter_None _ _ _)) by by left.
    by case_decide.
Qed.

End edit_form_ids_and_data.

(** * Further properties of the dynamic inline form *)

(** X17: for an orderable model the order field takes the place of a
    field [_order] that the form already has, and goes last when the
    form has none; for other models the fields are those of the class.
    The rest of the form is in both cases what the model form
    constructor made of the arguments. *)
Theorem DynamicInlineAdminForm_init_keys (model : ModelClass)
    (Meta_fields : option (list string)) (base_fields : SortedDict.t Field)
    (instance : option Model) (initial : option (gmap string PyVal))
    (data files : option (gmap string string)) :
  let self :=
    DynamicInlineAdminForm.__init__ model Meta_fields base_fields instance
                                    initial data files in
  let standard :=
    ModelForm.__init__ model Meta_fields base_fields instance initial
                       data files in
  SortedDict.keys (ModelForm.fields self)
  = (if issubclass model DynamicInlineAdminForm.Orderable
     then if decide ("_order" ∈ SortedDict.keys base_fields)
          then SortedDict.keys base_fields
          else (SortedDict.keys base_fields ++ ["_order"])%list
     else SortedDict.keys base_fields)
  ∧ ModelForm.model self = ModelForm.model standard
  ∧ ModelForm.Meta_fields self = ModelForm.Meta_fields standard
  ∧ ModelForm.initial self = ModelForm.initial standard
  ∧ ModelForm.instance self = ModelForm.instance standard
  ∧ ModelForm.data self = ModelForm.data standard
  ∧ ModelForm.files self = ModelForm.files standard.
Proof.
  intros self standard. subst self standard.
  unfold DynamicInlineAdminForm.__init__.
  cbn [ModelForm.__init__ ModelForm.model ModelForm.fields].
  destruct (issubclass model _); [|done].
  split_and!; try done. cbn [ModelForm.fields].
  case_decide.
  - by apply SortedDictFacts.keys_set_present.
  - by apply SortedDictFacts.keys_set_absent.
Qed.

(** * The further properties on the example data *)

(** A login form whose password field failed its own validation. *)
Lemma LoginForm_clean_skips_authentication_witness :
  (@LoginForm.clean Demo.framework
     ({| UserForm.initial := ∅; UserForm.data := None;
         UserForm.cleaned_data := {[ "email" := "alice@example.com" ]};
         UserForm._user := None |}, Demo.world false)).1
  = Return {[ "email" := "alice@example.com" ]}.
Proof.
  apply (@LoginForm_clean_skips_authentication Demo.framework).
  right. reflexivity.
Defined.

(** A signup form saved without its password field. *)
Lemma SignupForm_save_missing_key_witness :
  @SignupForm.save Demo.framework
    ({| UserForm.initial := ∅; UserForm.data := None;
        UserForm.cleaned_data := {[ "email" := "erin@example.com" ]};
        UserForm._user := None |}, Demo.world false)
  = (Raise (KeyError (PStr "password")),
     ({| UserForm.initial := ∅; UserForm.data := None;
         UserForm.cleaned_data := {[ "email" := "erin@example.com" ]};
         UserForm._user := None |}, Demo.world false)).
Proof.
  apply (@SignupForm_save_missing_key Demo.framework);
    [by eexists|reflexivity].
Defined.

(** Alice is registered already. *)
Lemma SignupForm_save_taken_username_witness :
  @SignupForm.save Demo.framework
    (Demo.submitted "alice@example.com" "pw", Demo.world true)
  = (Raise IntegrityError,
     (Demo.submitted "alice@example.com" "pw",
      {| auth_user := auth_user (Demo.world true);
         settings := settings (Demo.world true);
         calls := [Call_create_user "alice@example.com" "alice@example.com"
                     "pw"] |})).
Proof.
  apply (@SignupForm_save_taken_username Demo.framework
           (Demo.submitted "alice@example.com" "pw") (Demo.world true)
           "alice@example.com" "pw" Demo.alice); reflexivity.
Defined.

(** Erin signs up, and a second signup with her e-mail is rejected. *)
Lemma SignupForm_save_then_clean_email_witness :
  (SignupForm.clean_email
     (Demo.submitted "erin@example.com" "other",
      (@SignupForm.save Demo.framework
         (Demo.submitted "erin@example.com" "pw", Demo.world false)).2.2)).1
  = Raise (ValidationError "This email is already registered").
Proof.
  apply (@SignupForm_save_then_clean_email Demo.framework
           (Demo.submitted "erin@example.com" "pw")
           (Demo.submitted "erin@example.com" "other") (Demo.world false)
           "erin@example.com" "pw"); reflexivity.
Defined.

(** Erin signs up where verification is required and tries to log in
    with her password. *)
Lemma signup_with_verification_blocks_login_witness :
  (@LoginForm.clean Demo.framework
     (Demo.submitted "erin@example.com" "pw",
      (@SignupForm.save Demo.framework
         (Demo.submitted "erin@example.com" "pw", Demo.world true)).2.2)).1
  = Raise (ValidationError "Your account is inactive").
Proof.
  exact (@signup_with_verification_blocks_login Demo.framework
           (Demo.submitted "erin@example.com" "pw")
           (Demo.submitted "erin@example.com" "pw") (Demo.world true)
           "erin@example.com" "pw" "pw" check_password_sound
           eq_refl eq_refl eq_refl eq_refl eq_refl eq_refl).
Defined.

(** Where no verification is required her login passes. *)
Lemma signup_without_verification_allows_login_witness :
  (@LoginForm.clean Demo.framework
     (Demo.submitted "erin@example.com" "pw",
      (@SignupForm.save Demo.framework
         (Demo.submitted "erin@example.com" "pw", Demo.world false)).2.2)).1
  = Return {[ "email" := "erin@example.com"; "password" := "pw" ]}.
Proof.
  exact (@signup_without_verification_allows_login Demo.framework
           (Demo.submitted "erin@example.com" "pw")
           (Demo.submitted "erin@example.com" "pw") (Demo.world false)
           "erin@example.com" "pw" "pw" check_password_sound
           eq_refl eq_refl eq_refl eq_refl eq_refl eq_refl).
Defined.

(** The form of the example request, logged in too early. *)
Lemma UserForm_login_before_authenticate_witness :
  ∃ self,
    @UserForm.__init__ Demo.framework Demo.request None = Return self
    ∧ @UserForm.login Demo.framework Demo.request (self, Demo.world false)
      = (Raise (AttributeError "_user"), (self, Demo.world false)).
Proof.
  eexists. split; [vm_compute; reflexivity|].
  apply (@UserForm_login_before_authenticate Demo.framework Demo.request
           Demo.request None).
  vm_compute. reflexivity.
Defined.

Lemma UserForm_init_initial_sound_witness :
  ∃ self,
    @UserForm.__init__ Demo.framework Demo.request None = Return self
    ∧ UserForm.data self = None
    ∧ UserForm.cleaned_data self = ∅
    ∧ UserForm._user self = None.
Proof.
  eexists. split; [vm_compute; reflexivity|].
  eapply (@UserForm_init_initial_sound Demo.framework Demo.request None).
  vm_compute. reflexivity.
Defined.

(** A space after the comma makes a name that is no field. *)
Lemma get_edit_form_unknown_field_raises_witness :
  ∃ missing,
    @get_edit_form Demo.framework (Demo.configured false false) "u-1"
      Demo.event "title, start_date" None None
    = Raise (FieldError missing)
    ∧ " start_date" ∈ missing.
Proof.
  destruct (@get_edit_form_unknown_field_raises Demo.framework
              (Demo.configured false false) "u-1" Demo.event
              "title, start_date" None None " start_date")
    as (missing & Hraise & Hin & _).
  - cbn. set_solver.
  - cbn. set_solver.
  - cbn. set_solver.
  - set_solver.
  - exists missing. split; [exact Hraise|exact Hin].
Defined.

(** The contact's e-mail field with a table that has no e-mail widget. *)
Lemma get_edit_form_failures_witness :
  ∃ field_type,
    @get_edit_form Demo.framework_without_email_widget
      (Demo.configured false false) "u-1" Demo.contact "email" None None
    = Raise (KeyError (PInt field_type))
    ∧ @fields_WIDGETS Demo.framework_without_email_widget !! field_type
      = None.
Proof.
  destruct (@get_edit_form_failures Demo.framework_without_email_widget
              (Demo.configured false false) "u-1" Demo.contact "email"
              None None (KeyError (PInt 3)))
    as [(missing & n & Hfield & _)|(field_type & Hkey & _ & Htable)].
  - vm_compute. reflexivity.
  - discriminate Hfield.
  - injection Hkey as <-. exists 3%Z. split; [|exact Htable].
    vm_compute. reflexivity.
Defined.


(** The initial data of the example form holds the event's title and
    nothing under a name that was not asked for. *)
Lemma get_edit_form_initial_object_values_witness :
  ∃ self,
    @get_edit_form Demo.framework (Demo.configured false true) "u-1"
      Demo.event "title,start_date" None None = Return self
    ∧ ModelForm.initial (EditForm.form self) !! "title"
      = Some (PStr "Launch").
Proof.
  destruct Demo_get_edit_form_returns as [self Hself].
  exists self. split; [exact Hself|].
  rewrite (@get_edit_form_initial_object_values Demo.framework _ _ _ _ _ _
             self "title" Hself); [|set_solver].
  vm_compute. reflexivity.
Defined.
